(** * cloudflare-auth-worker: challenge ledger, tunnel registry and
      the authentication handlers, embedded from the TypeScript sources.

    Layout
    - [Js]: the few JavaScript notions the handlers rely on (truthiness,
      JSON values, property access, exceptions as an outcome type,
      [startsWith] / [substring]).
    - [Platform]: what the Workers runtime provides (URL parser, base64,
      Web Crypto, JSON text), as a record the handlers are parameterised by.
    - [ChallengeStorage], [TunnelStorage]: the two Durable Object classes.
    - [Utils], [Auth]: utils.ts and auth.ts.
    - [Worker]: the handlers of index.ts for /challenge, /verify and
      /tunnel/register, over a world holding the Durable Object storages.
    - [Demo]: a small concrete platform used to run the handlers.
    Theorems follow the definitions. *)

From Stdlib Require Import ZArith String Ascii List Lia Bool.
From stdpp Require Import base option strings gmap.
Import ListNotations.

Open Scope string_scope.
Open Scope Z_scope.

(* ===================================================================== *)
(** ** JavaScript notions *)
(* ===================================================================== *)

Module Js.

(** A call either returns a value or throws. *)
Inductive outcome (A : Type) : Type :=
| Returned (a : A)
| Thrown.
Arguments Returned {A} a.
Arguments Thrown {A}.

Definition bind {A B} (m : outcome A) (k : A -> outcome B) : outcome B :=
  match m with
  | Returned a => k a
  | Thrown => Thrown
  end.

(** [try { body } catch { return handler }] *)
Definition try_catch {A} (body : outcome A) (handler : A) : outcome A :=
  match body with
  | Returned a => Returned a
  | Thrown => Returned handler
  end.

(** JSON values as they travel between the worker and its Durable Objects. *)
#[local] Unset Elimination Schemes.
Inductive jsval : Type :=
| JUndefined
| JNull
| JBool (b : bool)
| JNum (n : Z)
| JStr (s : string)
| JArr (items : list jsval)
| JObj (fields : list (string * jsval)).
#[local] Set Elimination Schemes.

Fixpoint assoc {A} (k : string) (l : list (string * A)) : option A :=
  match l with
  | [] => None
  | (k', v) :: l' => if String.eqb k k' then Some v else assoc k l'
  end.

(** [v.name] for an own data property [name]: reading a property of
    [undefined] or [null] throws, a missing property is [undefined]. *)
Definition get (v : jsval) (name : string) : outcome jsval :=
  match v with
  | JUndefined | JNull => Thrown
  | JObj fields => Returned (default JUndefined (assoc name fields))
  | _ => Returned JUndefined
  end.

(** [!!v] *)
Definition truthy (v : jsval) : bool :=
  match v with
  | JUndefined | JNull => false
  | JBool b => b
  | JNum n => negb (n =? 0)
  | JStr s => negb (String.eqb s "")
  | JArr _ | JObj _ => true
  end.

(** [v !== s] for a string [s] *)
Definition strict_neq_string (v : jsval) (s : string) : bool :=
  match v with
  | JStr t => negb (String.eqb t s)
  | _ => true
  end.

(** [n > v] for a number [n]; a comparison with [undefined] is false. *)
Definition num_gt (n : Z) (v : jsval) : bool :=
  match v with
  | JNum m => m <? n
  | _ => false
  end.

(** What a property read [parsed[name]] gives, as far as the handlers look
    at it: nothing, a string, or something that is not a string (a number,
    a boolean, [null], an array, an object, a function), of which only the
    truthiness matters. *)
Inductive member :=
| NoMember
| StringMember (s : string)
| OtherMember (is_truthy : bool).

(** [!!m] *)
Definition member_truthy (m : member) : bool :=
  match m with
  | NoMember => false
  | StringMember s => negb (String.eqb s "")
  | OtherMember t => t
  end.

Definition member_of (v : jsval) : member :=
  match v with
  | JUndefined => NoMember
  | JStr s => StringMember s
  | _ => OtherMember (truthy v)
  end.

(** The properties every object inherits from [Object.prototype]: functions,
    and the prototype object itself under [__proto__]. *)
Definition objectPrototypeNames : list string :=
  ["constructor"; "__defineGetter__"; "__defineSetter__"; "hasOwnProperty";
   "__lookupGetter__"; "__lookupSetter__"; "isPrototypeOf";
   "propertyIsEnumerable"; "toString"; "valueOf"; "__proto__"; "toLocaleString"].

(** [parsed[name]] for a value [parsed] that [JSON.parse] returned, whose
    objects list each key once. On [null] the read throws; on an object it
    gives the own property, else the inherited one; on an array, a string,
    a number or a boolean it is what [builtin] says. *)
Definition read_member (builtin : jsval -> string -> member) (parsed : jsval)
    (name : string) : outcome member :=
  match parsed with
  | JUndefined | JNull => Thrown
  | JObj fields =>
      match assoc name fields with
      | Some v => Returned (member_of v)
      | None =>
          if existsb (String.eqb name) objectPrototypeNames
          then Returned (OtherMember true)
          else Returned NoMember
      end
  | _ => Returned (builtin parsed name)
  end.

(** An optional string field that is present and non-empty ([!x] is false). *)
Definition present (x : option string) : option string :=
  match x with
  | Some s => if String.eqb s "" then None else Some s
  | None => None
  end.

(** [s.startsWith(p)] *)
Fixpoint startsWith (p s : string) : bool :=
  match p with
  | EmptyString => true
  | String a p' =>
      match s with
      | EmptyString => false
      | String b s' => Ascii.eqb a b && startsWith p' s'
      end
  end.

(** [s.substring(n)] *)
Fixpoint substring_from (n : nat) (s : string) : string :=
  match n with
  | O => s
  | S n' =>
      match s with
      | EmptyString => EmptyString
      | String _ s' => substring_from n' s'
      end
  end.

(** [s.replace(pat, '')] for a non-empty string pattern: the first
    occurrence is removed. *)
Fixpoint remove_first (pat s : string) : string :=
  if startsWith pat s then substring_from (String.length pat) s
  else match s with
       | EmptyString => EmptyString
       | String c s' => String c (remove_first pat s')
       end.

(** [s.replace(/c/g, r)] for a single character [c] *)
Fixpoint replace_char (c r : ascii) (s : string) : string :=
  match s with
  | EmptyString => EmptyString
  | String a s' => String (if Ascii.eqb a c then r else a) (replace_char c r s')
  end.

(** [s.replace(/.../g, '')] for a character class given as a predicate *)
Fixpoint remove_chars (drop : ascii -> bool) (s : string) : string :=
  match s with
  | EmptyString => EmptyString
  | String a s' =>
      if drop a then remove_chars drop s' else String a (remove_chars drop s')
  end.

(** The class [\s] on 8-bit characters: TAB, LF, VT, FF, CR, SPACE, NBSP. *)
Definition is_space (a : ascii) : bool :=
  let n := nat_of_ascii a in
  ((9 <=? n)%nat && (n <=? 13)%nat) || (n =? 32)%nat || (n =? 160)%nat.

End Js.

Import Js.

(** HTTP plumbing shared by the worker and the Durable Objects. *)
Inductive Method := GET | POST | DELETE | PATCH | OPTIONS.

Definition Method_eqb (a b : Method) : bool :=
  match a, b with
  | GET, GET | POST, POST | DELETE, DELETE | PATCH, PATCH | OPTIONS, OPTIONS => true
  | _, _ => false
  end.

(** A request to a Durable Object; [B] is the shape of its JSON body. *)
Record Request (B : Type) := mkRequest {
  req_method : Method;
  req_url : string;
  req_body : option B
}.
Arguments mkRequest {B}.
Arguments req_method {B}.
Arguments req_url {B}.
Arguments req_body {B}.

Inductive Payload :=
| Json (v : jsval)
| Text (s : string).

Record Response := mkResponse {
  status : Z;
  payload : Payload
}.

(** [response.ok] *)
Definition ok (r : Response) : bool := (200 <=? status r) && (status r <=? 299).

(** [await response.json()] *)
Definition json (r : Response) : outcome jsval :=
  match payload r with
  | Json v => Returned v
  | Text _ => Thrown
  end.

(* ===================================================================== *)
(** ** The runtime *)
(* ===================================================================== *)

(** What the Workers runtime supplies: the URL parser ([new URL(u).pathname]),
    base64 ([atob] throws on malformed input, [btoa] on a character above
    U+00FF), [TextEncoder], JSON text ([JSON.parse] throws on malformed
    text), property reads on values that are not plain objects, and Web
    Crypto ([subtle_sign_hmac] stands for importing the raw key and signing,
    and throws on a key the runtime refuses, such as an empty one).
    [pathname_store] states how the URL parser reads the one fixed internal
    URL the worker posts to. *)
Record Platform := {
  CryptoKey : Type;
  pathname : string -> string;
  pathname_store : pathname "http://internal/store" = "/store";
  atob : string -> outcome string;
  btoa : string -> outcome string;
  utf8 : string -> string;
  JSON_stringify : jsval -> string;
  JSON_parse : string -> outcome jsval;
  builtin_member : jsval -> string -> member;
  subtle_importKey_spki : string -> outcome CryptoKey;
  subtle_verify : CryptoKey -> string -> string -> outcome bool;
  subtle_sign_hmac : string -> string -> outcome string
}.

(* ===================================================================== *)
(** ** challenge.ts: Durable Object holding one challenge per client *)
(* ===================================================================== *)

Module ChallengeStorage.

Record Entry := mkEntry {
  challenge : string;
  expiresAt : Z
}.

(** Body of [POST /store]. *)
Record StoreBody := mkStoreBody {
  b_clientId : string;
  b_challenge : string;
  b_expiresAt : Z
}.

Definition entry_json (e : Entry) : jsval :=
  JObj [("challenge", JStr (challenge e)); ("expiresAt", JNum (expiresAt e))].

Section Handler.
Context (P : Platform).

(** [ChallengeStorage.fetch]: the storage before, the request; the storage
    after and the response. A request without a readable JSON body makes
    [request.json()] throw, which the handler's [catch] turns into a 500. *)
Definition fetch (storage : gmap string Entry) (request : Request StoreBody)
  : gmap string Entry * Response :=
  let path := pathname P (req_url request) in
  if String.eqb path "/store" && Method_eqb (req_method request) POST then
    match req_body request with
    | Some b =>
        (<[b_clientId b := mkEntry (b_challenge b) (b_expiresAt b)]> storage,
         mkResponse 200 (Json (JObj [("success", JBool true)])))
    | None =>
        (storage, mkResponse 500 (Json (JObj [("error", JStr "Internal error")])))
    end
  else if startsWith "/get/" path && Method_eqb (req_method request) GET then
    let clientId := substring_from 5 path in
    match storage !! clientId with
    | None =>
        (storage, mkResponse 404 (Json (JObj [("error", JStr "Challenge not found")])))
    | Some data => (storage, mkResponse 200 (Json (entry_json data)))
    end
  else if startsWith "/delete/" path && Method_eqb (req_method request) DELETE then
    let clientId := substring_from 8 path in
    (delete clientId storage, mkResponse 200 (Json (JObj [("success", JBool true)])))
  else
    (storage, mkResponse 404 (Json (JObj [("error", JStr "Not found")]))).

End Handler.
End ChallengeStorage.

(* ===================================================================== *)
(** ** tunnel-storage.ts: Durable Object holding the tunnel records *)
(* ===================================================================== *)

Module TunnelStorage.

(** [interface TunnelInfo] *)
Record TunnelInfo := mkTunnelInfo {
  clientId : string;
  tunnelUrl : string;
  updatedAt : Z;
  createdAt : Z
}.

(** Body of [POST /store] as the worker sends it. The handler destructures
    [clientId] and [tunnelUrl] only. *)
Record StoreBody := mkStoreBody {
  b_clientId : string;
  b_tunnelUrl : string;
  b_token : string
}.

(** [JSON.stringify(tunnelInfo)] followed by [JSON.parse]. *)
Definition info_json (t : TunnelInfo) : jsval :=
  JObj [("clientId", JStr (clientId t));
        ("tunnelUrl", JStr (tunnelUrl t));
        ("updatedAt", JNum (updatedAt t));
        ("createdAt", JNum (createdAt t))].

Definition failure (st : Z) (msg : string) : Response :=
  mkResponse st (Json (JObj [("success", JBool false); ("error", JStr msg)])).

Definition success_data (data : jsval) : Response :=
  mkResponse 200 (Json (JObj [("success", JBool true); ("data", data)])).

(** [existing?.createdAt || now] *)
Definition createdAt_or (existing : option TunnelInfo) (now : Z) : Z :=
  match existing with
  | Some e => if createdAt e =? 0 then now else createdAt e
  | None => now
  end.

Definition store_request (c url tok : string) : Request StoreBody :=
  mkRequest POST "http://internal/store" (Some (mkStoreBody c url tok)).

Section Handler.
Context (P : Platform).

(** [TunnelStorage.fetch]; [now] is what [Date.now()] returns. *)
Definition fetch (storage : gmap string TunnelInfo) (request : Request StoreBody)
    (now : Z) : gmap string TunnelInfo * Response :=
  let path := pathname P (req_url request) in
  if String.eqb path "/store" && Method_eqb (req_method request) POST then
    match req_body request with
    | None => (storage, failure 500 "Internal error")
    | Some body =>
        let clientId := b_clientId body in
        let tunnelUrl := b_tunnelUrl body in
        if String.eqb clientId "" || String.eqb tunnelUrl "" then
          (storage, failure 400 "Missing clientId or tunnelUrl")
        else
          let key := "tunnel:" +:+ clientId in
          let existing := storage !! key in
          let tunnelInfo :=
            mkTunnelInfo clientId tunnelUrl now (createdAt_or existing now) in
          (<[key := tunnelInfo]> storage, success_data (info_json tunnelInfo))
    end
  else if startsWith "/get/" path && Method_eqb (req_method request) GET then
    let clientId := substring_from 5 path in
    if String.eqb clientId "" then (storage, failure 400 "Missing clientId")
    else
      let key := "tunnel:" +:+ clientId in
      match storage !! key with
      | None => (storage, failure 404 "Tunnel not found")
      | Some tunnelInfo => (storage, success_data (info_json tunnelInfo))
      end
  else if String.eqb path "/list" && Method_eqb (req_method request) GET then
    let allEntries :=
      List.filter (fun kv => startsWith "tunnel:" (fst kv)) (map_to_list storage) in
    let tunnels := List.map (fun kv => info_json (snd kv)) allEntries in
    (storage,
     mkResponse 200
       (Json (JObj [("success", JBool true); ("data", JArr tunnels);
                    ("count", JNum (Z.of_nat (List.length tunnels)))])))
  else if startsWith "/delete/" path && Method_eqb (req_method request) DELETE then
    let clientId := substring_from 8 path in
    if String.eqb clientId "" then (storage, failure 400 "Missing clientId")
    else
      let key := "tunnel:" +:+ clientId in
      (delete key storage,
       mkResponse 200
         (Json (JObj [("success", JBool true);
                      ("message", JStr ("Tunnel for " +:+ clientId +:+ " deleted"))])))
  else
    (storage, mkResponse 404 (Text "Not found")).

(** The storages the object can hold: it starts empty and changes only
    through [fetch], at clock readings after the epoch. *)
Inductive reachable : gmap string TunnelInfo -> Prop :=
| reachable_empty : reachable ∅
| reachable_fetch storage request now :
    reachable storage -> 0 < now -> reachable (fst (fetch storage request now)).

End Handler.
End TunnelStorage.

(* ===================================================================== *)
(** ** utils.ts *)
(* ===================================================================== *)

Module Utils.

(** A property of [env] is a string (a variable or a secret) or a binding
    object (Durable Object namespace, service). *)
Inductive EnvValue :=
| EnvString (s : string)
| EnvBinding.

(** [env], with [Object.keys(env)] the first components in order and
    [env[key]] the associated value. *)
Abbreviation Env := (list (string * EnvValue)).

Definition excludeKeys : list string := ["AUTHORIZED_CLIENTS"; "CHALLENGE_STORAGE"].

(** [keys.includes(key)] *)
Definition includes (keys : list string) (key : string) : bool :=
  existsb (String.eqb key) keys.

(** [secrets[key] = value] on the plain object [secrets], for a string
    [value]: under the key [__proto__] the assignment reaches the inherited
    setter, which ignores a string, and no property is created. *)
Definition assign (secrets : gmap string string) (key value : string)
  : gmap string string :=
  if String.eqb key "__proto__" then secrets else <[key := value]> secrets.

(** The callback of the [forEach] in [extractSecrets], acting on [secrets]. *)
Definition collect (env : Env) (secrets : gmap string string) (key : string)
  : gmap string string :=
  match assoc key env with
  | Some (EnvString value) =>
      if negb (includes excludeKeys key) then assign secrets key value
      else secrets
  | _ => secrets
  end.

(** [extractSecrets]: the [forEach] over [Object.keys(env)], from the empty
    object. *)
Definition extractSecrets (env : Env) : gmap string string :=
  fold_left (collect env) (List.map fst env) ∅.

Section WithPlatform.
Context (P : Platform).

(** [generateChallenge] and [generateToken]; [bytes] are the 32 bytes that
    [crypto.getRandomValues] filled in. *)
Definition generateChallenge (bytes : string) : outcome string := btoa P bytes.
Definition generateToken (bytes : string) : outcome string := btoa P bytes.

(** [getAuthorizedClients]: whatever [JSON.parse] returns; a parse error
    yields the empty object. *)
Definition getAuthorizedClients (envVar : string) : jsval :=
  match JSON_parse P envVar with
  | Returned clients => clients
  | Thrown => JObj []
  end.

End WithPlatform.
End Utils.

(* ===================================================================== *)
(** ** auth.ts *)
(* ===================================================================== *)

Module Auth.
Section WithPlatform.
Context (P : Platform).

Definition pemHeader : string := "-----BEGIN PUBLIC KEY-----".
Definition pemFooter : string := "-----END PUBLIC KEY-----".

(** [importPublicKey]: throws when the base64 body or the key is malformed. *)
Definition importPublicKey (pemKey : string) : outcome (CryptoKey P) :=
  let pemContents :=
    remove_chars is_space (remove_first pemFooter (remove_first pemHeader pemKey)) in
  bind (atob P pemContents) (fun binaryDer => subtle_importKey_spki P binaryDer).

(** [verifySignature]: the whole body runs inside [try], the [catch]
    returns [false]. *)
Definition verifySignature (publicKey : CryptoKey P) (challenge signature : string)
  : outcome bool :=
  try_catch
    (bind (atob P signature) (fun signatureBytes =>
       let challengeBytes := utf8 P challenge in
       subtle_verify P publicKey signatureBytes challengeBytes))
    false.

(** The local [base64UrlEncode] applied to the base64 text. *)
Definition base64Url (b64 : string) : string :=
  remove_chars (Ascii.eqb "=") (replace_char "/" "_" (replace_char "+" "-" b64)).

Definition base64UrlEncode (obj : jsval) : outcome string :=
  bind (btoa P (JSON_stringify P obj)) (fun b64 => Returned (base64Url b64)).

Definition jwtHeader : jsval := JObj [("alg", JStr "HS256"); ("typ", JStr "JWT")].

Definition jwtPayload (clientId : string) (now : Z) : jsval :=
  JObj [("clientId", JStr clientId);
        ("iat", JNum (now / 1000));
        ("exp", JNum (now / 1000 + 3600))].

(** [generateJWT]; [now] is [Date.now()]. It throws when one of the base64
    encodings or the HMAC does. *)
Definition generateJWT (clientId secretKey : string) (now : Z) : outcome string :=
  let header := jwtHeader in
  let payload := jwtPayload clientId now in
  bind (base64UrlEncode header) (fun encodedHeader =>
  bind (base64UrlEncode payload) (fun encodedPayload =>
    let data := encodedHeader +:+ "." +:+ encodedPayload in
    bind (subtle_sign_hmac P (utf8 P secretKey) (utf8 P data)) (fun signature =>
    bind (btoa P signature) (fun b64 =>
      let encodedSignature := base64Url b64 in
      Returned (data +:+ "." +:+ encodedSignature))))).

End WithPlatform.
End Auth.

(* ===================================================================== *)
(** ** index.ts: the worker *)
(* ===================================================================== *)

Module Worker.
Import Utils.

(** The Durable Objects the worker talks to: one [ChallengeStorage] object
    per name ([idFromName(clientId)]) and the [TunnelStorage] object named
    ['global']. An object that was never addressed has an empty storage. *)
Record World := mkWorld {
  challengeObjects : gmap string (gmap string ChallengeStorage.Entry);
  tunnelObject : gmap string TunnelStorage.TunnelInfo
}.

Definition challenge_storage (w : World) (name : string)
  : gmap string ChallengeStorage.Entry :=
  default ∅ (challengeObjects w !! name).

Definition set_challenge_storage (w : World) (name : string)
    (storage : gmap string ChallengeStorage.Entry) : World :=
  mkWorld (<[name := storage]> (challengeObjects w)) (tunnelObject w).

(** The challenge held for identity [c]: the worker keeps it in the object
    named [c], under the key [c]. *)
Definition challenge_entry (w : World) (c : string) : option ChallengeStorage.Entry :=
  challenge_storage w c !! c.

(** What a handler answers: [errorResponse(error, status)] together with the
    line it wrote with [console.error], or a success value. *)
Inductive Reply (A : Type) : Type :=
| Failure (status : Z) (error : string) (logged : string)
| Success (a : A).
Arguments Failure {A} status error logged.
Arguments Success {A} a.

Record ChallengeOk := mkChallengeOk {
  c_challenge : string;
  c_expiresAt : Z
}.

Record VerifyBody := mkVerifyBody {
  v_clientId : option string;
  v_challenge : option string;
  v_signature : option string;
  v_repoUrl : option string;
  v_grpcEndpoint : option string;
  v_includeRepoList : bool;
  v_tunnelUrl : option string
}.

(** What a request meets besides the stored state: the clock, the random
    bytes of [generateToken], and what the webhook worker's repository
    listing produced ([None] when it failed or was unusable). *)
Record Ambient := mkAmbient {
  now : Z;
  random : string;
  repos : option (list string)
}.

Record VerifyOk := mkVerifyOk {
  token : string;
  accessToken : string;
  secretData : gmap string string;
  repoList : option (list string)
}.

Record RegisterBody := mkRegisterBody {
  r_clientId : option string;
  r_tunnelUrl : option string;
  r_token : option string
}.

(** Outcome of the checks of /verify that precede the deletion. *)
Inductive Checked :=
| Rejected (status : Z) (error : string) (logged : string)
| Accepted (clientId : string).

Section Handlers.
Context (P : Platform).

(** [stub.fetch] on the challenge object [name]. *)
Definition challenge_stub_fetch (w : World) (name : string)
    (request : Request ChallengeStorage.StoreBody) : World * Response :=
  let r := ChallengeStorage.fetch P (challenge_storage w name) request in
  (set_challenge_storage w name (fst r), snd r).

(** [stub.fetch] on the tunnel object. *)
Definition tunnel_stub_fetch (w : World)
    (request : Request TunnelStorage.StoreBody) (now : Z) : World * Response :=
  let r := TunnelStorage.fetch P (tunnelObject w) request now in
  (mkWorld (challengeObjects w) (fst r), snd r).

(** [getAuthorizedClients(env.AUTHORIZED_CLIENTS)]; anything but a string
    fails to parse. *)
Definition authorizedClients (env : Env) : jsval :=
  match assoc "AUTHORIZED_CLIENTS" env with
  | Some (EnvString s) => getAuthorizedClients P s
  | _ => JObj []
  end.

(** [authorizedClients[clientId]] *)
Definition client_key (env : Env) (clientId : string) : outcome member :=
  read_member (builtin_member P) (authorizedClients env) clientId.

Definition internal_error {A} : Reply A :=
  Failure 500 "Internal error" "Internal error:".

(** POST /challenge; [bytes] are the random bytes of [generateChallenge]. *)
Definition challenge (env : Env) (w : World) (clientId : option string)
    (now : Z) (bytes : string) : World * Reply ChallengeOk :=
  match present clientId with
  | None => (w, Failure 400 "Bad request" "Missing clientId in /challenge request")
  | Some clientId =>
      match client_key env clientId with
      | Thrown => (w, internal_error)
      | Returned publicKey =>
          if negb (member_truthy publicKey) then
            (w, Failure 401 "Authentication failed"
                  ("Unauthorized client: " +:+ clientId))
          else
            match generateChallenge P bytes with
            | Thrown => (w, internal_error)
            | Returned challenge =>
                let expiresAt := now + 5 * 60 * 1000 in
                let stored :=
                  challenge_stub_fetch w clientId
                    (mkRequest POST "http://internal/store"
                       (Some (ChallengeStorage.mkStoreBody clientId challenge
                                expiresAt))) in
                (fst stored, Success (mkChallengeOk challenge expiresAt))
            end
      end
  end.

(** POST /verify, from the lookup of the public key to the signature
    check. A key that is not a string has no [replace] method, so that
    [importPublicKey] throws on it. *)
Definition check_signature (env : Env) (clientId challenge signature : string)
  : Checked :=
  match client_key env clientId with
  | Thrown => Rejected 500 "Internal error" "Internal error:"
  | Returned publicKeyPem =>
      if negb (member_truthy publicKeyPem) then
        Rejected 401 "Authentication failed"
          ("Public key not found for client: " +:+ clientId)
      else
        match publicKeyPem with
        | StringMember pem =>
            match
              bind (Auth.importPublicKey P pem) (fun publicKey =>
                Auth.verifySignature P publicKey challenge signature)
            with
            | Thrown => Rejected 500 "Internal error" "Internal error:"
            | Returned false =>
                Rejected 401 "Authentication failed"
                  ("Invalid signature for client: " +:+ clientId)
            | Returned true => Accepted clientId
            end
        | _ => Rejected 500 "Internal error" "Internal error:"
        end
  end.

(** POST /verify, first part: everything up to and including the signature
    check. *)
Definition verify_checks (env : Env) (w : World) (body : VerifyBody) (now : Z)
  : World * Checked :=
  match present (v_clientId body), present (v_challenge body),
        present (v_signature body) with
  | Some clientId, Some challenge, Some signature =>
      let fetched :=
        challenge_stub_fetch w clientId
          (mkRequest GET ("http://internal/get/" +:+ clientId) None) in
      let w1 := fst fetched in
      let response := snd fetched in
      if negb (ok response) then
        (w1, Rejected 401 "Authentication failed"
               ("Challenge not found for client: " +:+ clientId))
      else
        match json response with
        | Thrown => (w1, Rejected 500 "Internal error" "Internal error:")
        | Returned storedData =>
            match get storedData "expiresAt", get storedData "challenge" with
            | Returned stored_expiresAt, Returned stored_challenge =>
                if num_gt now stored_expiresAt then
                  let deleted :=
                    challenge_stub_fetch w1 clientId
                      (mkRequest DELETE ("http://internal/delete/" +:+ clientId) None) in
                  (fst deleted,
                   Rejected 401 "Authentication failed"
                     ("Challenge expired for client: " +:+ clientId))
                else if strict_neq_string stored_challenge challenge then
                  (w1, Rejected 401 "Authentication failed"
                         ("Challenge mismatch for client: " +:+ clientId))
                else
                  (w1, check_signature env clientId challenge signature)
            | _, _ => (w1, Rejected 500 "Internal error" "Internal error:")
            end
        end
  | _, _, _ => (w, Rejected 400 "Bad request" "Missing fields in /verify request")
  end.

(** The secret the compact token is signed with. *)
Definition jwtSecret (env : Env) : string :=
  match assoc "SECRET_DATA" env with
  | Some (EnvString s) => s
  | _ => "default-secret"
  end.

(** POST /verify, second part: the challenge is deleted, the credentials are
    minted and, when the request carries a tunnel URL, the tunnel record is
    stored with the fresh access token. When minting throws, the outer
    [catch] answers 500, the challenge being deleted already. The PATCH sent
    to the webhook worker changes neither these storages nor the answer and
    is left out. *)
Definition verify_issue (env : Env) (w : World) (clientId : string)
    (body : VerifyBody) (amb : Ambient) : World * Reply VerifyOk :=
  let deleted :=
    challenge_stub_fetch w clientId
      (mkRequest DELETE ("http://internal/delete/" +:+ clientId) None) in
  let w2 := fst deleted in
  match Auth.generateJWT P clientId (jwtSecret env) (now amb) with
  | Thrown => (w2, internal_error)
  | Returned token =>
      let secretData := extractSecrets env in
      match generateToken P (random amb) with
      | Thrown => (w2, internal_error)
      | Returned accessToken =>
          let w3 :=
            match present (v_tunnelUrl body) with
            | Some tunnelUrl =>
                fst (tunnel_stub_fetch w2
                       (mkRequest POST "http://internal/store"
                          (Some (TunnelStorage.mkStoreBody clientId tunnelUrl
                                   accessToken)))
                       (now amb))
            | None => w2
            end in
          let repoList := if v_includeRepoList body then repos amb else None in
          (w3, Success (mkVerifyOk token accessToken secretData repoList))
      end
  end.

(** POST /verify *)
Definition verify (env : Env) (w : World) (body : VerifyBody) (amb : Ambient)
  : World * Reply VerifyOk :=
  match verify_checks env w body (now amb) with
  | (w1, Rejected st err lg) => (w1, Failure st err lg)
  | (w1, Accepted clientId) => verify_issue env w1 clientId body amb
  end.

(** POST /tunnel/register; the success value is the JSON the tunnel object
    answered to the update. *)
Definition tunnel_register (w : World) (body : RegisterBody) (now : Z)
  : World * Reply jsval :=
  match present (r_clientId body), present (r_tunnelUrl body),
        present (r_token body) with
  | Some clientId, Some tunnelUrl, Some token =>
      let fetched :=
        tunnel_stub_fetch w
          (mkRequest GET ("http://internal/get/" +:+ clientId) None) now in
      let w1 := fst fetched in
      let getResponse := snd fetched in
      if negb (ok getResponse) then
        (w1, Failure 401 "Authentication failed"
               ("No existing tunnel found for client: " +:+ clientId))
      else
        let invalid :=
          bind (json getResponse) (fun existingData =>
          bind (get existingData "success") (fun success =>
            if negb (truthy success) then Returned true
            else
              bind (get existingData "data") (fun data =>
              bind (get data "token") (fun stored =>
                Returned (strict_neq_string stored token))))) in
        match invalid with
        | Thrown => (w1, Failure 500 "Internal error" "Internal error:")
        | Returned true =>
            (w1, Failure 401 "Authentication failed"
                   ("Invalid token for client: " +:+ clientId))
        | Returned false =>
            let updated :=
              tunnel_stub_fetch w1
                (mkRequest POST "http://internal/store"
                   (Some (TunnelStorage.mkStoreBody clientId tunnelUrl token)))
                now in
            let updateResponse := snd updated in
            if negb (ok updateResponse) then
              (fst updated,
               Failure 500 "Failed to register tunnel" "Failed to update tunnel URL")
            else
              match json updateResponse with
              | Thrown => (fst updated, Failure 500 "Internal error" "Internal error:")
              | Returned result => (fst updated, Success result)
              end
        end
  | _, _, _ =>
      (w, Failure 400 "Bad request" "Missing fields in /tunnel/register request")
  end.

(** The identity [c] travels unchanged through the path of the internal
    URLs built from it: the URL parser neither escapes nor resolves anything
    in it. Identities made of letters, digits, [-] and [_] are of this kind. *)
Definition path_safe (c : string) : Prop :=
  pathname P ("http://internal/get/" +:+ c) = "/get/" +:+ c /\
  pathname P ("http://internal/delete/" +:+ c) = "/delete/" +:+ c.

(** "Once the entry has been fetched for verification it is gone by the end
    of the request, whatever the later checks say." *)
Definition deleted_once_fetched (env : Env) (w : World) (body : VerifyBody)
    (amb : Ambient) : Prop :=
  forall c ch sg e,
    present (v_clientId body) = Some c ->
    present (v_challenge body) = Some ch ->
    present (v_signature body) = Some sg ->
    challenge_entry w c = Some e ->
    challenge_entry (fst (verify env w body amb)) c = None.

End Handlers.
End Worker.

(* ===================================================================== *)
(** ** Overlapping /verify requests *)
(* ===================================================================== *)

(** A /verify request in flight. The handler awaits the challenge object
    twice: once to read the entry and, after the checks, once to delete it.
    Between the two awaits other requests may run. *)
Module Concurrent.
Import Utils Worker.

Inductive Thread :=
| Started (body : VerifyBody) (amb : Ambient)
| Verified (clientId : string) (body : VerifyBody) (amb : Ambient)
| Finished (reply : Reply VerifyOk).

Section Steps.
Context (P : Platform) (env : Env).

(** One uninterrupted stretch of the handler. *)
Definition step (w : World) (t : Thread) : World * Thread :=
  match t with
  | Started body amb =>
      match verify_checks P env w body (now amb) with
      | (w1, Rejected st err lg) => (w1, Finished (Failure st err lg))
      | (w1, Accepted clientId) => (w1, Verified clientId body amb)
      end
  | Verified clientId body amb =>
      let issued := verify_issue P env w clientId body amb in
      (fst issued, Finished (snd issued))
  | Finished reply => (w, Finished reply)
  end.

(** Run the requests [ts] under a schedule: each number names the request
    that runs its next stretch. *)
Fixpoint run (schedule : list nat) (w : World) (ts : list Thread)
  : World * list Thread :=
  match schedule with
  | [] => (w, ts)
  | i :: rest =>
      match ts !! i with
      | Some t =>
          let r := step w t in
          run rest (fst r) (<[i := snd r]> ts)
      | None => run rest w ts
      end
  end.

(** Requests handled one after the other, each to completion. *)
Fixpoint verify_each (w : World) (requests : list (VerifyBody * Ambient))
  : World * list (Reply VerifyOk) :=
  match requests with
  | [] => (w, [])
  | (body, amb) :: rest =>
      let r := verify P env w body amb in
      let rs := verify_each (fst r) rest in
      (fst rs, snd r :: snd rs)
  end.

End Steps.

Definition finished (t : Thread) : bool :=
  match t with
  | Finished _ => true
  | _ => false
  end.

Definition succeeded (t : Thread) : bool :=
  match t with
  | Finished (Success _) => true
  | _ => false
  end.

Definition is_success {A} (r : Reply A) : bool :=
  match r with
  | Success _ => true
  | Failure _ _ _ => false
  end.

(** "Of the overlapping requests exactly one succeeds", for one schedule
    that runs all of them to the end. *)
Definition exactly_one_succeeds (P : Platform) (env : Env) (schedule : list nat)
    (w : World) (ts : list Thread) : Prop :=
  let r := run P env schedule w ts in
  forallb finished (snd r) = true ->
  List.length (List.filter succeeded (snd r)) = 1%nat.

End Concurrent.

(* ===================================================================== *)
(** ** index.ts: the read routes and the dispatch *)
(* ===================================================================== *)

Module Router.
Import Utils Worker.

(** [s.endsWith(suffix)] *)
Definition endsWith (suffix s : string) : bool :=
  (String.length suffix <=? String.length s)%nat &&
  String.eqb (substring_from (String.length s - String.length suffix) s) suffix.

(** The test both read routes make: the [X-Service-Binding] header, or the
    host name of the request URL. *)
Definition isServiceBindingRequest (header : option string) (hostname : string)
  : bool :=
  match header with Some h => String.eqb h "true" | None => false end
  || String.eqb hostname "fake-host"
  || endsWith ".internal" hostname.

(** The JSON body of a request, with every field the routes read. *)
Record Body := mkBody {
  clientId : option string;
  challenge : option string;
  signature : option string;
  repoUrl : option string;
  grpcEndpoint : option string;
  includeRepoList : bool;
  tunnelUrl : option string;
  token : option string
}.

(** An incoming request: [hostname] is [new URL(request.url).hostname],
    [service_binding] the value of the [X-Service-Binding] header, [body]
    the parsed JSON body ([None] when [request.json()] throws). *)
Record Incoming := mkIncoming {
  in_method : Method;
  in_url : string;
  in_hostname : string;
  in_service_binding : option string;
  in_body : option Body
}.

(** What the worker answers, by route. *)
Inductive Answer :=
| Preflight
| Health
| ChallengeAnswer (reply : Reply ChallengeOk)
| VerifyAnswer (reply : Reply VerifyOk)
| RegisterAnswer (reply : Reply jsval)
| TunnelAnswer (reply : Reply jsval)
| TunnelsAnswer (reply : Reply jsval)
| NotFound.

Definition verify_body (b : Body) : VerifyBody :=
  mkVerifyBody (clientId b) (challenge b) (signature b) (repoUrl b)
    (grpcEndpoint b) (includeRepoList b) (tunnelUrl b).

Definition register_body (b : Body) : RegisterBody :=
  mkRegisterBody (clientId b) (tunnelUrl b) (token b).

Section Routes.
Context (P : Platform).

(** GET /tunnel/{clientId}; [path] is the path of the request. The 400
    answer writes nothing to the log. *)
Definition tunnel_get (w : World) (path : string) (header : option string)
    (hostname : string) (now : Z) : World * Reply jsval :=
  let clientId := substring_from 8 path in
  if String.eqb clientId "" then (w, Failure 400 "Bad request" "")
  else if negb (isServiceBindingRequest header hostname) then
    (w, Failure 401 "Unauthorized" "Unauthorized access to /tunnel/{clientId}")
  else
    let fetched :=
      tunnel_stub_fetch P w
        (mkRequest GET ("http://internal/get/" +:+ clientId) None) now in
    let response := snd fetched in
    if negb (ok response) then
      (fst fetched,
       Failure 404 "Tunnel not found" ("Tunnel not found for client: " +:+ clientId))
    else
      match json response with
      | Thrown => (fst fetched, Failure 500 "Internal error" "Internal error:")
      | Returned result => (fst fetched, Success result)
      end.

(** GET /tunnels: a request that is not a service-binding request is only
    logged. *)
Definition tunnels (w : World) (header : option string) (hostname : string)
    (now : Z) : World * Reply jsval :=
  let fetched :=
    tunnel_stub_fetch P w (mkRequest GET "http://internal/list" None) now in
  let response := snd fetched in
  if negb (ok response) then
    (fst fetched, Failure 500 "Failed to list tunnels" "Failed to list tunnels")
  else
    match json response with
    | Thrown => (fst fetched, Failure 500 "Internal error" "Internal error:")
    | Returned result => (fst fetched, Success result)
    end.

(** The exported [fetch]: the routes in the order the source tests them.
    A body that cannot be read makes the route answer 500 from the outer
    [catch]. *)
Definition fetch (env : Env) (w : World) (request : Incoming) (amb : Ambient)
  : World * Answer :=
  let path := pathname P (in_url request) in
  let method := in_method request in
  let crashed {A} : Reply A := Failure 500 "Internal error" "Internal error:" in
  if Method_eqb method OPTIONS then (w, Preflight)
  else if String.eqb path "/health" && Method_eqb method GET then (w, Health)
  else if String.eqb path "/challenge" && Method_eqb method POST then
    match in_body request with
    | None => (w, ChallengeAnswer crashed)
    | Some b =>
        let r := Worker.challenge P env w (clientId b) (now amb) (random amb) in
        (fst r, ChallengeAnswer (snd r))
    end
  else if String.eqb path "/verify" && Method_eqb method POST then
    match in_body request with
    | None => (w, VerifyAnswer crashed)
    | Some b =>
        let r := verify P env w (verify_body b) amb in
        (fst r, VerifyAnswer (snd r))
    end
  else if String.eqb path "/tunnel/register" && Method_eqb method POST then
    match in_body request with
    | None => (w, RegisterAnswer crashed)
    | Some b =>
        let r := tunnel_register P w (register_body b) (now amb) in
        (fst r, RegisterAnswer (snd r))
    end
  else if startsWith "/tunnel/" path && Method_eqb method GET then
    let r :=
      tunnel_get w path (in_service_binding request) (in_hostname request)
        (now amb) in
    (fst r, TunnelAnswer (snd r))
  else if String.eqb path "/tunnels" && Method_eqb method GET then
    let r :=
      tunnels w (in_service_binding request) (in_hostname request) (now amb) in
    (fst r, TunnelsAnswer (snd r))
  else (w, NotFound).

End Routes.
End Router.

(* ===================================================================== *)
(** ** A concrete platform to run the handlers on *)
(* ===================================================================== *)

Module Demo.
Import Utils Worker.

(** The URL parser writes a space in a path as [%20]. *)
Fixpoint encode_spaces (s : string) : string :=
  match s with
  | EmptyString => EmptyString
  | String a s' =>
      if Ascii.eqb a " " then String "%" (String "2" (String "0" (encode_spaces s')))
      else String a (encode_spaces s')
  end.

(** The path of an internal URL ["http://internal" ++ path] in which nothing
    but spaces needs rewriting. *)
Definition internal_path (url : string) : string :=
  encode_spaces (substring_from 15 url).

(** A stand-in signature scheme: the signature of [data] under [key] is
    [key ++ ":" ++ data]. *)
Definition sign (key data : string) : string := key +:+ ":" +:+ data.

Definition platform : Platform := {|
  CryptoKey := string;
  pathname := internal_path;
  pathname_store := eq_refl;
  atob := fun s => if String.eqb s "!" then Thrown else Returned s;
  btoa := fun s => Returned s;
  utf8 := fun s => s;
  JSON_stringify := fun _ => "{}";
  JSON_parse := fun s =>
    if String.eqb s "clients"
    then Returned (JObj [("c1", JStr "KEY1"); ("c 1", JStr "KEY2")])
    else if String.eqb s "null" then Returned JNull
    else Thrown;
  builtin_member := fun _ _ => NoMember;
  subtle_importKey_spki := fun der => Returned der;
  subtle_verify := fun key signature data => Returned (String.eqb signature (sign key data));
  subtle_sign_hmac := fun key data =>
    if String.eqb key "" then Thrown else Returned (sign key data)
|}.

Definition env : Env :=
  [("AUTHORIZED_CLIENTS", EnvString "clients");
   ("SECRET_DATA", EnvString "s3cret");
   ("API_KEY", EnvString "k-123");
   ("CHALLENGE_STORAGE", EnvBinding);
   ("TUNNEL_STORAGE", EnvBinding);
   ("WEBHOOK_WORKER", EnvBinding)].

Definition empty_world : World := mkWorld ∅ ∅.

(** The world after [POST /challenge {clientId: "c1"}] at time 1000 with
    random bytes ["nonce"]. *)
Definition issued : World :=
  fst (challenge platform env empty_world (Some "c1") 1000 "nonce").

Definition verify_body (challenge signature : string) (tunnelUrl : option string)
  : VerifyBody :=
  mkVerifyBody (Some "c1") (Some challenge) (Some signature) None None false tunnelUrl.

Definition good_body : VerifyBody :=
  verify_body "nonce" (sign "KEY1" "nonce") (Some "https://t1.example").

(** The entry that request leaves for "c1". *)
Definition entry1 : ChallengeStorage.Entry := ChallengeStorage.mkEntry "nonce" 301000.

(** A request presenting another challenge than the one issued. *)
Definition wrong_body : VerifyBody :=
  verify_body "other" (sign "KEY1" "other") None.

Definition amb1 : Ambient := mkAmbient 2000 "tok" None.
Definition amb2 : Ambient := mkAmbient 2001 "tokB" None.
Definition amb3 : Ambient := mkAmbient 2002 "tokC" None.

(** A clock reading after the challenge has expired. *)
Definition amb_late : Ambient := mkAmbient 400000 "tok" None.

(** What /verify answers to [good_body] at [amb1]. *)
Definition good_reply : VerifyOk :=
  mkVerifyOk "{}.{}.s3cret:{}.{}" "tok" (extractSecrets env) None.

(** The identity "c 1" is provisioned too; its name holds a space. The world
    after [POST /challenge {clientId: "c 1"}] at time 1000 with random bytes
    ["nonce"], and requests for it. *)
Definition issued_spaced : World :=
  fst (challenge platform env empty_world (Some "c 1") 1000 "nonce").

Definition spaced_body (challenge : string) : VerifyBody :=
  mkVerifyBody (Some "c 1") (Some challenge) (Some (sign "KEY2" challenge))
    None None false None.



(** The tunnel object after a first store for "c1" at time 1000. *)
Definition stored_once : gmap string TunnelStorage.TunnelInfo :=
  fst (TunnelStorage.fetch platform ∅
         (TunnelStorage.store_request "c1" "https://t1.example" "tok") 1000).

Definition record1 : TunnelStorage.TunnelInfo :=
  TunnelStorage.mkTunnelInfo "c1" "https://t1.example" 1000 1000.

End Demo.

(* ===================================================================== *)
(** * Properties *)
(* ===================================================================== *)

(** ** Strings and routes *)

Lemma eqb_empty_false (s : string) : s <> "" -> String.eqb s "" = false.
Proof. intros H. now apply String.eqb_neq. Qed.

Lemma present_Some (x : option string) (s : string) :
  present x = Some s -> x = Some s /\ s <> "".
Proof.
  unfold present. destruct x as [t|]; [|discriminate].
  destruct (String.eqb t "") eqn:E; [discriminate|].
  intros [= ->]. split; [reflexivity|]. now apply String.eqb_neq.
Qed.

Lemma present_intro (s : string) : s <> "" -> present (Some s) = Some s.
Proof. intros H. unfold present. now rewrite eqb_empty_false. Qed.

Lemma append_cons (a : ascii) (s t : string) : String a s +:+ t = String a (s +:+ t).
Proof. reflexivity. Qed.

Lemma append_empty (t : string) : "" +:+ t = t.
Proof. reflexivity. Qed.

(** Decide the route tests of a handler once the path is known up to its
    identity part. *)
Ltac route :=
  repeat (rewrite append_cons || rewrite append_empty); simpl;
  repeat (rewrite <- append_cons).

(** ** auth.ts *)

Section AuthFacts.
Context (P : Platform).

(** C9. [verifySignature] always returns a boolean, whatever the key, the
    challenge and the signature text are: when base64 decoding of the
    signature throws, or when the cryptographic check throws, the value
    returned is [false]; otherwise it is the verdict of the check. *)
Theorem verifySignature_never_throws
    (publicKey : CryptoKey P) (challenge signature : string) :
  (exists b, Auth.verifySignature P publicKey challenge signature = Returned b) /\
  (atob P signature = Thrown ->
   Auth.verifySignature P publicKey challenge signature = Returned false) /\
  (forall bytes,
     atob P signature = Returned bytes ->
     Auth.verifySignature P publicKey challenge signature =
       match subtle_verify P publicKey bytes (utf8 P challenge) with
       | Returned verdict => Returned verdict
       | Thrown => Returned false
       end).
Proof.
  unfold Auth.verifySignature, try_catch, bind.
  repeat split.
  - destruct (atob P signature) as [bytes|]; [|eauto].
    destruct (subtle_verify P publicKey bytes (utf8 P challenge)); eauto.
  - now intros ->.
  - now intros bytes ->.
Qed.

End AuthFacts.

(** ** utils.ts *)

Section SecretFacts.
Import Utils.
Context (env : Env).








End SecretFacts.

(** ** tunnel-storage.ts *)

Section TunnelFacts.
Import TunnelStorage.
Context (P : Platform).

Lemma tunnel_fetch_store (st : gmap string TunnelInfo) (c url tok : string) (now : Z) :
  c <> "" -> url <> "" ->
  fetch P st (store_request c url tok) now =
    let info := mkTunnelInfo c url now (createdAt_or (st !! ("tunnel:" +:+ c)) now) in
    (<["tunnel:" +:+ c := info]> st, success_data (info_json info)).
Proof.
  intros Hc Hu. unfold fetch, store_request. simpl req_url.
  rewrite pathname_store. simpl.
  now rewrite (eqb_empty_false c), (eqb_empty_false url).
Qed.

Lemma tunnel_fetch_get (st : gmap string TunnelInfo) (url c : string)
    (b : option StoreBody) (now : Z) :
  pathname P url = "/get/" +:+ c -> c <> "" ->
  fetch P st (mkRequest GET url b) now =
    (st, match st !! ("tunnel:" +:+ c) with
         | None => failure 404 "Tunnel not found"
         | Some info => success_data (info_json info)
         end).
Proof.
  intros Hp Hc. unfold fetch. simpl req_url. rewrite Hp. route.
  rewrite (eqb_empty_false c) by assumption.
  now destruct (st !! _).
Qed.

(** Every stored record was created at a positive clock reading. *)
Lemma reachable_createdAt (st : gmap string TunnelInfo) :
  reachable P st -> forall k info, st !! k = Some info -> 0 < createdAt info.
Proof.
  induction 1 as [|st request now Hreach IH Hnow]; intros k info.
  - now rewrite lookup_empty.
  - unfold fetch.
    repeat match goal with
    | |- context [if ?b then _ else _] => destruct b
    | |- context [match req_body ?r with _ => _ end] => destruct (req_body r)
    | |- context [match st !! ?x with _ => _ end] => destruct (st !! x) eqn:?
    end; simpl; try apply IH.
    + destruct (decide (("tunnel:" +:+ b_clientId s) = k)) as [<-|Hne].
      * rewrite lookup_insert_eq. intros [= <-]. simpl.
        unfold createdAt_or.
        destruct (st !! ("tunnel:" +:+ b_clientId s)) as [e|] eqn:He; [|assumption].
        destruct (createdAt e =? 0) eqn:E; [assumption|].
        eapply IH, He.
      * rewrite lookup_insert_ne by assumption. apply IH.
    + intros Hk. apply lookup_delete_Some in Hk. eapply IH, Hk.
Qed.

(** C8. When the object already holds a record for an identity, storing a
    new tunnel URL for it keeps [createdAt], sets [updatedAt] to the time of
    the write, and a fetch of that identity right afterwards answers 200
    with the record just written: its [data.tunnelUrl] is the URL stored,
    its [data.createdAt] the old creation time, its [data.updatedAt] the
    time of the write. The token sent along plays no part at this level. *)
Theorem store_keeps_createdAt (st : gmap string TunnelInfo) (old : TunnelInfo)
    (c url tok : string) (now : Z) :
  reachable P st ->
  st !! ("tunnel:" +:+ c) = Some old ->
  c <> "" -> url <> "" ->
  exists info,
    fst (fetch P st (store_request c url tok) now) !! ("tunnel:" +:+ c) = Some info /\
    createdAt info = createdAt old /\
    updatedAt info = now /\
    tunnelUrl info = url /\
    forall get_url later,
      pathname P get_url = "/get/" +:+ c ->
      let answer :=
        snd (fetch P (fst (fetch P st (store_request c url tok) now))
               (mkRequest GET get_url None) later) in
      answer = success_data (info_json info) /\
      status answer = 200 /\
      bind (json answer) (fun a => bind (get a "data") (fun d => get d "clientId"))
        = Returned (JStr c) /\
      bind (json answer) (fun a => bind (get a "data") (fun d => get d "tunnelUrl"))
        = Returned (JStr url) /\
      bind (json answer) (fun a => bind (get a "data") (fun d => get d "createdAt"))
        = Returned (JNum (createdAt old)) /\
      bind (json answer) (fun a => bind (get a "data") (fun d => get d "updatedAt"))
        = Returned (JNum now).
Proof.
  intros Hreach Hold Hc Hu.
  rewrite tunnel_fetch_store by assumption. simpl.
  eexists. split; [apply lookup_insert_eq|].
  rewrite Hold. simpl.
  pose proof (reachable_createdAt st Hreach _ _ Hold) as Hpos.
  replace (createdAt old =? 0) with false by (symmetry; apply Z.eqb_neq; lia).
  repeat split;
    rewrite (tunnel_fetch_get _ get_url c) by assumption;
    cbn [snd]; rewrite lookup_insert_eq; reflexivity.
Qed.

(** C1, as the code has it: the record written by a store has no [token]
    property. Reading [data.token] from the answer of the store, or from a
    fetch of that identity right afterwards, gives [undefined], whatever
    token the request supplied. *)
Theorem store_discards_token (st : gmap string TunnelInfo)
    (c url tok : string) (now : Z) :
  c <> "" -> url <> "" ->
  let stored := fetch P st (store_request c url tok) now in
  (exists info,
     fst stored !! ("tunnel:" +:+ c) = Some info /\
     get (info_json info) "token" = Returned JUndefined) /\
  bind (json (snd stored)) (fun answer =>
    bind (get answer "data") (fun data => get data "token")) = Returned JUndefined /\
  forall get_url later,
    pathname P get_url = "/get/" +:+ c ->
    bind (json (snd (fetch P (fst stored) (mkRequest GET get_url None) later)))
      (fun answer => bind (get answer "data") (fun data => get data "token"))
    = Returned JUndefined.
Proof.
  intros Hc Hu. cbv zeta.
  rewrite tunnel_fetch_store by assumption. simpl.
  split; [|split].
  - eexists. split; [apply lookup_insert_eq|reflexivity].
  - reflexivity.
  - intros get_url later Hp.
    rewrite (tunnel_fetch_get _ get_url c) by assumption.
    simpl. now rewrite lookup_insert_eq.
Qed.

End TunnelFacts.

(** ** challenge.ts *)

Section ChallengeFacts.
Import ChallengeStorage.
Context (P : Platform).

Lemma challenge_fetch_get (st : gmap string Entry) (url k : string)
    (b : option StoreBody) :
  pathname P url = "/get/" +:+ k ->
  fetch P st (mkRequest GET url b) =
    (st, match st !! k with
         | None => mkResponse 404 (Json (JObj [("error", JStr "Challenge not found")]))
         | Some data => mkResponse 200 (Json (entry_json data))
         end).
Proof.
  intros Hp. unfold fetch. simpl req_url. rewrite Hp. route.
  now destruct (st !! k).
Qed.

Lemma challenge_fetch_delete (st : gmap string Entry) (url k : string)
    (b : option StoreBody) :
  pathname P url = "/delete/" +:+ k ->
  fetch P st (mkRequest DELETE url b) =
    (delete k st, mkResponse 200 (Json (JObj [("success", JBool true)]))).
Proof.
  intros Hp. unfold fetch. simpl req_url. rewrite Hp. now route.
Qed.

Lemma challenge_fetch_store (st : gmap string Entry) (b : StoreBody) :
  fetch P st (mkRequest POST "http://internal/store" (Some b)) =
    (<[b_clientId b := mkEntry (b_challenge b) (b_expiresAt b)]> st,
     mkResponse 200 (Json (JObj [("success", JBool true)]))).
Proof.
  unfold fetch. simpl req_url. now rewrite pathname_store.
Qed.

End ChallengeFacts.

(** ** index.ts *)

Section WorkerFacts.
Import Utils Worker.
Context (P : Platform) (env : Env).

Lemma challenge_storage_set_eq (w : World) (c : string)
    (st : gmap string ChallengeStorage.Entry) :
  challenge_storage (set_challenge_storage w c st) c = st.
Proof.
  unfold challenge_storage, set_challenge_storage. simpl.
  now rewrite lookup_insert_eq.
Qed.

Lemma challenge_storage_set_ne (w : World) (c name : string)
    (st : gmap string ChallengeStorage.Entry) :
  c <> name ->
  challenge_storage (set_challenge_storage w c st) name = challenge_storage w name.
Proof.
  intros Hne. unfold challenge_storage, set_challenge_storage. simpl.
  now rewrite lookup_insert_ne.
Qed.

(** Writing back the storage an object already has changes nothing one can
    observe. *)
Lemma challenge_storage_touch (w : World) (c name : string) :
  challenge_storage (set_challenge_storage w c (challenge_storage w c)) name
  = challenge_storage w name.
Proof.
  destruct (decide (c = name)) as [->|Hne].
  - apply challenge_storage_set_eq.
  - now apply challenge_storage_set_ne.
Qed.

Lemma stub_get (w : World) (c : string) :
  path_safe P c ->
  challenge_stub_fetch P w c (mkRequest GET ("http://internal/get/" +:+ c) None) =
    (set_challenge_storage w c (challenge_storage w c),
     match challenge_entry w c with
     | None => mkResponse 404 (Json (JObj [("error", JStr "Challenge not found")]))
     | Some data => mkResponse 200 (Json (ChallengeStorage.entry_json data))
     end).
Proof.
  intros [Hget _]. unfold challenge_stub_fetch, challenge_entry.
  now rewrite (challenge_fetch_get P _ _ c) by assumption.
Qed.

Lemma stub_delete (w : World) (c : string) :
  path_safe P c ->
  challenge_stub_fetch P w c
    (mkRequest DELETE ("http://internal/delete/" +:+ c) None) =
    (set_challenge_storage w c (delete c (challenge_storage w c)),
     mkResponse 200 (Json (JObj [("success", JBool true)]))).
Proof.
  intros [_ Hdel]. unfold challenge_stub_fetch.
  now rewrite (challenge_fetch_delete P _ _ c) by assumption.
Qed.

(** The four ways the checks of /verify can go, for an identity that is
    [path_safe] and a request that carries the three required fields. *)
Section Checks.
Context (w : World) (body : VerifyBody) (now : Z) (c ch sg : string).
Hypothesis Hsafe : path_safe P c.
Hypothesis Hc : present (v_clientId body) = Some c.
Hypothesis Hch : present (v_challenge body) = Some ch.
Hypothesis Hsg : present (v_signature body) = Some sg.

Lemma verify_checks_absent :
  challenge_entry w c = None ->
  verify_checks P env w body now =
    (set_challenge_storage w c (challenge_storage w c), Rejected 401 "Authentication failed"
                ("Challenge not found for client: " +:+ c)).
Proof.
  intros He. unfold verify_checks. rewrite Hc, Hch, Hsg.
  rewrite stub_get by assumption. rewrite He. reflexivity.
Qed.

Lemma verify_checks_expired (e : ChallengeStorage.Entry) :
  challenge_entry w c = Some e ->
  ChallengeStorage.expiresAt e < now ->
  verify_checks P env w body now =
    (set_challenge_storage (set_challenge_storage w c (challenge_storage w c)) c
       (delete c (challenge_storage w c)),
     Rejected 401 "Authentication failed"
       ("Challenge expired for client: " +:+ c)).
Proof.
  intros He Hlt. unfold verify_checks. rewrite Hc, Hch, Hsg.
  rewrite stub_get by assumption. rewrite He. cbn [fst snd].
  rewrite stub_delete by assumption. rewrite challenge_storage_set_eq.
  change (ok _) with true. simpl.
  replace (ChallengeStorage.expiresAt e <? now) with true
    by (symmetry; apply Z.ltb_lt; assumption).
  reflexivity.
Qed.

Lemma verify_checks_mismatch (e : ChallengeStorage.Entry) :
  challenge_entry w c = Some e ->
  now <= ChallengeStorage.expiresAt e ->
  ChallengeStorage.challenge e <> ch ->
  verify_checks P env w body now =
    (set_challenge_storage w c (challenge_storage w c), Rejected 401 "Authentication failed"
                ("Challenge mismatch for client: " +:+ c)).
Proof.
  intros He Hle Hne. unfold verify_checks. rewrite Hc, Hch, Hsg.
  rewrite stub_get by assumption. rewrite He. cbn [fst snd].
  change (ok _) with true. simpl.
  replace (ChallengeStorage.expiresAt e <? now) with false
    by (symmetry; apply Z.ltb_ge; assumption).
  replace (String.eqb (ChallengeStorage.challenge e) ch) with false
    by (symmetry; apply String.eqb_neq; assumption).
  reflexivity.
Qed.

Lemma verify_checks_match (e : ChallengeStorage.Entry) :
  challenge_entry w c = Some e ->
  now <= ChallengeStorage.expiresAt e ->
  ChallengeStorage.challenge e = ch ->
  verify_checks P env w body now =
    (set_challenge_storage w c (challenge_storage w c),
     check_signature P env c ch sg).
Proof.
  intros He Hle Heq. unfold verify_checks. rewrite Hc, Hch, Hsg.
  rewrite stub_get by assumption. rewrite He. cbn [fst snd].
  change (ok _) with true. simpl.
  replace (ChallengeStorage.expiresAt e <? now) with false
    by (symmetry; apply Z.ltb_ge; assumption).
  replace (String.eqb (ChallengeStorage.challenge e) ch) with true
    by (symmetry; apply String.eqb_eq; assumption).
  reflexivity.
Qed.

End Checks.

Lemma challenge_storage_tunnel (w : World) (request : Request TunnelStorage.StoreBody)
    (now : Z) (name : string) :
  challenge_storage (fst (tunnel_stub_fetch P w request now)) name
  = challenge_storage w name.
Proof. reflexivity. Qed.

Lemma tunnelObject_set (w : World) (c : string)
    (st : gmap string ChallengeStorage.Entry) :
  tunnelObject (set_challenge_storage w c st) = tunnelObject w.
Proof. reflexivity. Qed.

(** The signature check accepts exactly a non-empty string key that imports
    and under which the signature verifies. *)
Lemma check_signature_accepted (c c' ch sg : string) :
  check_signature P env c ch sg = Accepted c' <->
  c' = c /\
  exists pem key,
    client_key P env c = Returned (StringMember pem) /\ pem <> "" /\
    Auth.importPublicKey P pem = Returned key /\
    Auth.verifySignature P key ch sg = Returned true.
Proof.
  unfold check_signature. split.
  - destruct (client_key P env c) as [[|pem|t]|]; cbn [member_truthy negb];
      try discriminate.
    + destruct (String.eqb pem "") eqn:Ep; cbn [negb]; [discriminate|].
      apply String.eqb_neq in Ep.
      destruct (Auth.importPublicKey P pem) as [key|] eqn:Hk; cbn [bind];
        [|discriminate].
      destruct (Auth.verifySignature P key ch sg) as [[|]|] eqn:Hv;
        try discriminate.
      intros [= <-]. split; [reflexivity|]. now exists pem, key.
    + destruct t; discriminate.
  - intros [-> (pem & key & Hm & Hp & Hk & Hv)].
    rewrite Hm. cbn [member_truthy]. rewrite (eqb_empty_false _ Hp).
    cbn [negb]. rewrite Hk. cbn [bind]. now rewrite Hv.
Qed.

(** The second part of /verify removes the entry of the identity and leaves
    every other challenge object alone, whether or not minting succeeds. *)
Lemma verify_issue_storage (w : World) (c : string) (body : VerifyBody)
    (amb : Ambient) (name : string) :
  path_safe P c ->
  challenge_storage (fst (verify_issue P env w c body amb)) name =
    if decide (c = name) then delete c (challenge_storage w c)
    else challenge_storage w name.
Proof.
  intros Hsafe. unfold verify_issue. rewrite stub_delete by assumption.
  cbn [fst snd].
  assert (challenge_storage
            (set_challenge_storage w c (delete c (challenge_storage w c))) name
          = if decide (c = name) then delete c (challenge_storage w c)
            else challenge_storage w name) as Hset.
  { destruct (decide (c = name)) as [->|Hne].
    - apply challenge_storage_set_eq.
    - now apply challenge_storage_set_ne. }
  destruct (Auth.generateJWT P c (jwtSecret env) (now amb)); [|exact Hset].
  destruct (generateToken P (random amb)); [|exact Hset].
  cbn [fst].
  destruct (present (v_tunnelUrl body)); [rewrite challenge_storage_tunnel|];
    exact Hset.
Qed.

Lemma verify_issue_entry (w : World) (c : string) (body : VerifyBody) (amb : Ambient) :
  path_safe P c ->
  challenge_entry (fst (verify_issue P env w c body amb)) c = None.
Proof.
  intros Hsafe. unfold challenge_entry.
  rewrite verify_issue_storage by assumption.
  rewrite decide_True by reflexivity. apply lookup_delete_eq.
Qed.

(** What the second part answers does not depend on the stored state. *)
Lemma verify_issue_reply (w w' : World) (c : string) (body : VerifyBody)
    (amb : Ambient) :
  snd (verify_issue P env w c body amb) = snd (verify_issue P env w' c body amb).
Proof.
  unfold verify_issue.
  destruct (Auth.generateJWT P c (jwtSecret env) (now amb)); [|reflexivity].
  destruct (generateToken P (random amb)); reflexivity.
Qed.

(** Without an entry for the identity, /verify answers 401 and there is
    still no entry afterwards. *)
Lemma verify_absent (w : World) (body : VerifyBody) (amb : Ambient)
    (c ch sg : string) :
  path_safe P c ->
  present (v_clientId body) = Some c ->
  present (v_challenge body) = Some ch ->
  present (v_signature body) = Some sg ->
  challenge_entry w c = None ->
  snd (verify P env w body amb) =
    Failure 401 "Authentication failed" ("Challenge not found for client: " +:+ c) /\
  challenge_entry (fst (verify P env w body amb)) c = None.
Proof.
  intros Hsafe Hc Hch Hsg He. unfold verify.
  rewrite (verify_checks_absent w body (now amb) c ch sg) by assumption.
  cbn [fst snd]. split; [reflexivity|].
  unfold challenge_entry. now rewrite challenge_storage_touch.
Qed.

(** What is left of the entry after /verify, and whether the request
    succeeded, in terms of the entry held before. *)
Lemma verify_entry_after (w : World) (body : VerifyBody) (amb : Ambient)
    (c ch sg : string) (e : ChallengeStorage.Entry) :
  path_safe P c ->
  present (v_clientId body) = Some c ->
  present (v_challenge body) = Some ch ->
  present (v_signature body) = Some sg ->
  challenge_entry w c = Some e ->
  let accepted :=
    match check_signature P env c ch sg with
    | Accepted _ => true
    | Rejected _ _ _ => false
    end in
  let expired := ChallengeStorage.expiresAt e <? now amb in
  let matches := String.eqb (ChallengeStorage.challenge e) ch in
  challenge_entry (fst (verify P env w body amb)) c =
    (if expired || (matches && accepted) then None else Some e) /\
  Concurrent.is_success (snd (verify P env w body amb)) =
    negb expired && matches && accepted &&
    Concurrent.is_success (snd (verify_issue P env w c body amb)).
Proof.
  intros Hsafe Hc Hch Hsg He. cbv zeta. unfold verify.
  destruct (ChallengeStorage.expiresAt e <? now amb) eqn:Hexp.
  { apply Z.ltb_lt in Hexp.
    rewrite (verify_checks_expired w body (now amb) c ch sg Hsafe Hc Hch Hsg e)
      by assumption.
    cbn [fst snd orb negb andb]. split; [|reflexivity].
    unfold challenge_entry. rewrite challenge_storage_set_eq.
    apply lookup_delete_eq. }
  apply Z.ltb_ge in Hexp.
  destruct (String.eqb (ChallengeStorage.challenge e) ch) eqn:Hm.
  2:{ apply String.eqb_neq in Hm.
      rewrite (verify_checks_mismatch w body (now amb) c ch sg Hsafe Hc Hch Hsg e)
        by assumption.
      cbn [fst snd orb negb andb]. split; [|reflexivity].
      unfold challenge_entry. rewrite challenge_storage_touch. exact He. }
  apply String.eqb_eq in Hm.
  rewrite (verify_checks_match w body (now amb) c ch sg Hsafe Hc Hch Hsg e)
    by assumption.
  cbn [orb negb andb].
  assert (challenge_entry (set_challenge_storage w c (challenge_storage w c)) c
          = Some e) as Hkeep.
  { unfold challenge_entry. rewrite challenge_storage_touch. exact He. }
  destruct (check_signature P env c ch sg) as [st err lg|c'] eqn:Hsig;
    cbn [fst snd]; [split; [exact Hkeep|reflexivity]|].
  apply check_signature_accepted in Hsig as [-> _].
  split; [now apply verify_issue_entry|].
  cbn [andb]. f_equal. apply verify_issue_reply.
Qed.

End WorkerFacts.

(** ** The challenge ledger seen through /verify *)

Section LedgerTheorems.
Import Utils Worker.
Context (P : Platform) (env : Env).

Lemma verify_success_fields (w : World) (body : VerifyBody) (amb : Ambient)
    (okv : VerifyOk) :
  snd (verify P env w body amb) = Success okv ->
  exists c ch sg,
    present (v_clientId body) = Some c /\
    present (v_challenge body) = Some ch /\
    present (v_signature body) = Some sg.
Proof.
  unfold verify, verify_checks.
  destruct (present (v_clientId body)) as [c|]; [|discriminate].
  destruct (present (v_challenge body)) as [ch|]; [|discriminate].
  destruct (present (v_signature body)) as [sg|]; [|discriminate].
  intros _. now exists c, ch, sg.
Qed.

(** After a /verify that succeeded the identity has no challenge left. *)
Lemma verify_success_consumes (w : World) (body : VerifyBody) (amb : Ambient)
    (c : string) (okv : VerifyOk) :
  path_safe P c ->
  present (v_clientId body) = Some c ->
  snd (verify P env w body amb) = Success okv ->
  challenge_entry (fst (verify P env w body amb)) c = None.
Proof.
  intros Hsafe Hc Hok.
  destruct (verify_success_fields _ _ _ _ Hok) as (c' & ch & sg & Hc' & Hch & Hsg).
  rewrite Hc in Hc'. injection Hc' as <-.
  destruct (challenge_entry w c) as [e|] eqn:He.
  - destruct (verify_entry_after P env w body amb c ch sg e Hsafe Hc Hch Hsg He)
      as [Hafter Hsucc].
    rewrite Hok in Hsucc. simpl in Hsucc. symmetry in Hsucc.
    apply andb_true_iff in Hsucc as [Hsucc _].
    apply andb_true_iff in Hsucc as [Hsucc Hacc].
    apply andb_true_iff in Hsucc as [Hexp Hm].
    apply negb_true_iff in Hexp.
    now rewrite Hexp, Hm, Hacc in Hafter.
  - destruct (verify_absent P env w body amb c ch sg Hsafe Hc Hch Hsg He) as [Hf _].
    congruence.
Qed.

(** C3, amended. Once /verify has found the entry of the identity: an entry
    that has expired is deleted; an unexpired entry is left in place,
    unchanged, when the presented challenge differs from the stored one; and
    an unexpired entry is deleted when the presented challenge equals the
    stored one and the signature verifies under the identity's key, whether
    or not the rest of the request then succeeds. *)
Theorem verify_consumes_entry (w : World) (body : VerifyBody) (amb : Ambient)
    (c ch sg : string) (e : ChallengeStorage.Entry) :
  path_safe P c ->
  present (v_clientId body) = Some c ->
  present (v_challenge body) = Some ch ->
  present (v_signature body) = Some sg ->
  challenge_entry w c = Some e ->
  (ChallengeStorage.expiresAt e < now amb ->
   challenge_entry (fst (verify P env w body amb)) c = None) /\
  (now amb <= ChallengeStorage.expiresAt e ->
   ChallengeStorage.challenge e <> ch ->
   challenge_entry (fst (verify P env w body amb)) c = Some e) /\
  (now amb <= ChallengeStorage.expiresAt e ->
   ChallengeStorage.challenge e = ch ->
   forall pem key,
     client_key P env c = Returned (StringMember pem) ->
     pem <> "" ->
     Auth.importPublicKey P pem = Returned key ->
     Auth.verifySignature P key ch sg = Returned true ->
     challenge_entry (fst (verify P env w body amb)) c = None).
Proof.
  intros Hsafe Hc Hch Hsg He.
  destruct (verify_entry_after P env w body amb c ch sg e Hsafe Hc Hch Hsg He)
    as [Hafter _].
  rewrite Hafter. clear Hafter. repeat split.
  - intros Hlt. apply Z.ltb_lt in Hlt. now rewrite Hlt.
  - intros Hle Hne. apply Z.ltb_ge in Hle. apply String.eqb_neq in Hne.
    now rewrite Hle, Hne.
  - intros Hle Heq pem key Hm Hp Hk Hv.
    apply Z.ltb_ge in Hle. apply String.eqb_eq in Heq. rewrite Hle, Heq.
    assert (check_signature P env c ch sg = Accepted c) as ->; [|reflexivity].
    apply check_signature_accepted. split; [reflexivity|]. now exists pem, key.
Qed.

(** C5. After a /verify for an identity has succeeded, any further /verify
    for that identity, in particular one repeating the same challenge and
    signature, finds no entry and is answered 401 "Authentication failed". *)
Theorem verify_single_use (w : World) (body body' : VerifyBody)
    (amb amb' : Ambient) (c ch' sg' : string) (okv : VerifyOk) :
  path_safe P c ->
  present (v_clientId body) = Some c ->
  snd (verify P env w body amb) = Success okv ->
  present (v_clientId body') = Some c ->
  present (v_challenge body') = Some ch' ->
  present (v_signature body') = Some sg' ->
  snd (verify P env (fst (verify P env w body amb)) body' amb') =
    Failure 401 "Authentication failed" ("Challenge not found for client: " +:+ c).
Proof.
  intros Hsafe Hc Hok Hc' Hch' Hsg'.
  apply (verify_absent P env _ body' amb' c ch' sg'); try assumption.
  eapply verify_success_consumes; eassumption.
Qed.

(** *** Identities the URL parser rewrites *)

Lemma startsWith_split (p s : string) :
  startsWith p s = true -> s = p +:+ substring_from (String.length p) s.
Proof.
  revert s. induction p as [|a p IH]; intros s; [reflexivity|].
  destruct s as [|b s]; cbn [startsWith]; [discriminate|].
  intros H. apply andb_true_iff in H as [Hab Hrest].
  apply Ascii.eqb_eq in Hab. subst b.
  rewrite append_cons. cbn [String.length substring_from]. f_equal. now apply IH.
Qed.

(** A GET whose path does not address the one key the object holds finds
    nothing and changes nothing. *)
Lemma challenge_get_miss (st : gmap string ChallengeStorage.Entry)
    (url c : string) :
  (forall k e, st !! k = Some e -> k = c) ->
  pathname P url <> "/get/" +:+ c ->
  fst (ChallengeStorage.fetch P st (mkRequest GET url None)) = st /\
  ok (snd (ChallengeStorage.fetch P st (mkRequest GET url None))) = false.
Proof.
  intros Hown Hpath. unfold ChallengeStorage.fetch.
  cbn [req_method req_url req_body Method_eqb].
  rewrite !andb_false_r, !andb_true_r.
  destruct (startsWith "/get/" (pathname P url)) eqn:Hget; [|now split].
  destruct (st !! substring_from 5 (pathname P url)) as [e|] eqn:Hk; [|now split].
  exfalso. apply Hpath. apply Hown in Hk.
  rewrite (startsWith_split _ _ Hget). cbn [String.length]. now rewrite Hk.
Qed.

(** For an identity whose internal URL the parser rewrites, /verify never
    reaches the entry /challenge stored: it answers 401, logged as not
    found, and observably changes nothing. *)
Lemma verify_never_reaches (w : World) (body : VerifyBody) (amb : Ambient)
    (c ch sg : string) :
  present (v_clientId body) = Some c ->
  present (v_challenge body) = Some ch ->
  present (v_signature body) = Some sg ->
  (forall k e, challenge_storage w c !! k = Some e -> k = c) ->
  pathname P ("http://internal/get/" +:+ c) <> "/get/" +:+ c ->
  snd (verify P env w body amb) =
    Failure 401 "Authentication failed" ("Challenge not found for client: " +:+ c) /\
  forall name,
    challenge_storage (fst (verify P env w body amb)) name = challenge_storage w name.
Proof.
  intros Hc Hch Hsg Hown Hpath.
  destruct (challenge_get_miss _ _ c Hown Hpath) as [Hst Hok].
  unfold verify, verify_checks. rewrite Hc, Hch, Hsg.
  unfold challenge_stub_fetch. cbn [fst snd].
  rewrite Hok. cbn [negb fst snd]. split; [reflexivity|].
  intros name. rewrite Hst. apply challenge_storage_touch.
Qed.

(** C4, as the code has it, for an identity whose name the URL parser
    rewrites (a space becomes [%20]): the entry /challenge stored exists and
    is unexpired, the presented challenge differs, yet the request is logged
    as "not found", not as a mismatch; and although the entry stays, a
    later request with the stored challenge, before expiry and whatever its
    signature, does not find it either. *)
Theorem verify_retry_never_finds (w : World) (body : VerifyBody) (amb : Ambient)
    (c ch sg : string) (e : ChallengeStorage.Entry) :
  present (v_clientId body) = Some c ->
  present (v_challenge body) = Some ch ->
  present (v_signature body) = Some sg ->
  challenge_entry w c = Some e ->
  (forall k e', challenge_storage w c !! k = Some e' -> k = c) ->
  pathname P ("http://internal/get/" +:+ c) <> "/get/" +:+ c ->
  now amb <= ChallengeStorage.expiresAt e ->
  ChallengeStorage.challenge e <> ch ->
  snd (verify P env w body amb) =
    Failure 401 "Authentication failed" ("Challenge not found for client: " +:+ c) /\
  challenge_entry (fst (verify P env w body amb)) c = Some e /\
  forall body' amb' sg',
    present (v_clientId body') = Some c ->
    present (v_challenge body') = Some (ChallengeStorage.challenge e) ->
    present (v_signature body') = Some sg' ->
    now amb' <= ChallengeStorage.expiresAt e ->
    snd (verify P env (fst (verify P env w body amb)) body' amb') =
      Failure 401 "Authentication failed"
        ("Challenge not found for client: " +:+ c).
Proof.
  intros Hc Hch Hsg He Hown Hpath _ _.
  destruct (verify_never_reaches w body amb c ch sg Hc Hch Hsg Hown Hpath)
    as [Hreply Hsame].
  split; [exact Hreply|]. split.
  - unfold challenge_entry. now rewrite Hsame.
  - intros body' amb' sg' Hc' Hch' Hsg' _.
    apply (verify_never_reaches _ body' amb' c (ChallengeStorage.challenge e) sg');
      try assumption.
    intros k e'. rewrite Hsame. apply Hown.
Qed.

(** C6, as the code has it, for an identity whose name the URL parser
    rewrites: the entry /challenge stored exists and the clock is past its
    [expiresAt], yet the request is logged as "not found", not as expired,
    and the entry is not deleted. *)
Theorem verify_expired_not_deleted (w : World) (body : VerifyBody) (amb : Ambient)
    (c ch sg : string) (e : ChallengeStorage.Entry) :
  present (v_clientId body) = Some c ->
  present (v_challenge body) = Some ch ->
  present (v_signature body) = Some sg ->
  challenge_entry w c = Some e ->
  (forall k e', challenge_storage w c !! k = Some e' -> k = c) ->
  pathname P ("http://internal/get/" +:+ c) <> "/get/" +:+ c ->
  ChallengeStorage.expiresAt e < now amb ->
  snd (verify P env w body amb) =
    Failure 401 "Authentication failed" ("Challenge not found for client: " +:+ c) /\
  challenge_entry (fst (verify P env w body amb)) c = Some e.
Proof.
  intros Hc Hch Hsg He Hown Hpath _.
  destruct (verify_never_reaches w body amb c ch sg Hc Hch Hsg Hown Hpath)
    as [Hreply Hsame].
  split; [exact Hreply|]. unfold challenge_entry. now rewrite Hsame.
Qed.

End LedgerTheorems.

(** ** Several /verify requests for one challenge *)

Section RepeatedVerify.
Import Utils Worker Concurrent.
Context (P : Platform) (env : Env).

(** A request handled alone goes through the same two stretches. *)
Lemma step_twice_is_verify (w : World) (body : VerifyBody) (amb : Ambient) :
  let first := step P env w (Started body amb) in
  let second := step P env (fst first) (snd first) in
  second = (fst (verify P env w body amb), Finished (snd (verify P env w body amb))).
Proof.
  cbv zeta. unfold verify. cbn [step].
  destruct (verify_checks P env w body (now amb)) as [w1 [st err lg|c]];
    reflexivity.
Qed.

Lemma verify_each_absent (body : VerifyBody) (c ch sg : string) :
  path_safe P c ->
  present (v_clientId body) = Some c ->
  present (v_challenge body) = Some ch ->
  present (v_signature body) = Some sg ->
  forall (ambs : list Ambient) (w : World),
    challenge_entry w c = None ->
    snd (verify_each P env w (List.map (pair body) ambs)) =
      List.repeat
        (Failure 401 "Authentication failed"
           ("Challenge not found for client: " +:+ c))
        (List.length ambs).
Proof.
  intros Hsafe Hc Hch Hsg.
  induction ambs as [|amb ambs IH]; intros w He; [reflexivity|].
  destruct (verify_absent P env w body amb c ch sg Hsafe Hc Hch Hsg He)
    as [Hreply Hafter].
  simpl. rewrite Hreply. f_equal. now apply IH.
Qed.

(** When requests carrying the same identity, challenge and signature are
    handled one after the other and the first one succeeds, it is the only
    one: each later request is answered 401 "Authentication failed", having
    found no entry. *)
Lemma sequential_verify_one_success (w : World) (body : VerifyBody)
    (amb : Ambient) (ambs : list Ambient) (c : string) (okv : VerifyOk) :
  path_safe P c ->
  present (v_clientId body) = Some c ->
  snd (verify P env w body amb) = Success okv ->
  snd (verify_each P env w ((body, amb) :: List.map (pair body) ambs)) =
    Success okv ::
    List.repeat
      (Failure 401 "Authentication failed" ("Challenge not found for client: " +:+ c))
      (List.length ambs).
Proof.
  intros Hsafe Hc Hok.
  destruct (verify_success_fields P env _ _ _ _ Hok) as (c' & ch & sg & Hc' & Hch & Hsg).
  cbn [verify_each snd]. rewrite Hok. f_equal.
  apply (verify_each_absent body c ch sg); try assumption.
  eapply verify_success_consumes; eassumption.
Qed.

End RepeatedVerify.

(** ** The secret bundle of /verify *)

Section SecretBundle.
Import Utils Worker.
Context (P : Platform) (env : Env).

Lemma verify_checks_accepted (w w1 : World) (body : VerifyBody) (t : Z) (c : string) :
  verify_checks P env w body t = (w1, Accepted c) ->
  present (v_clientId body) = Some c.
Proof.
  unfold verify_checks.
  repeat match goal with
  | |- context [match ?x with _ => _ end] =>
      match type of x with
      | sumbool _ _ => fail 1
      | _ => destruct x
      end
  end; intros H; try discriminate H.
  injection H as _ H. now apply check_signature_accepted in H as [-> _].
Qed.



End SecretBundle.

(** ** /tunnel/register *)

Section RegisterTheorems.
Import Utils Worker.
Context (P : Platform).

(** A GET on the tunnel object changes nothing, and whatever it answers
    with an ok status carries no [data.token] equal to a string. *)
Lemma tunnel_get_no_token (st : gmap string TunnelStorage.TunnelInfo)
    (url token : string) (now : Z) :
  let r := TunnelStorage.fetch P st (mkRequest GET url None) now in
  fst r = st /\
  (ok (snd r) = true ->
   bind (json (snd r)) (fun existingData =>
   bind (get existingData "success") (fun success =>
     if negb (truthy success) then Returned true
     else
       bind (get existingData "data") (fun data =>
       bind (get data "token") (fun stored =>
         Returned (strict_neq_string stored token))))) = Returned true).
Proof.
  cbv zeta. unfold TunnelStorage.fetch. cbn [req_method req_url req_body Method_eqb].
  rewrite !andb_false_r, !andb_true_r.
  destruct (startsWith "/get/" (pathname P url)).
  - destruct (String.eqb (substring_from 5 (pathname P url)) "").
    + split; [reflexivity|discriminate].
    + destruct (st !! _); split; try reflexivity; try discriminate.
  - destruct (String.eqb (pathname P url) "/list");
      split; try reflexivity; try discriminate.
Qed.

(** C2, as the code has it: /tunnel/register never succeeds. Whatever the
    stored records and whatever token the request presents, the answer is
    400 "Bad request" or 401 "Authentication failed", and the tunnel records
    are left as they were. *)
Theorem tunnel_register_always_rejects (w : World) (body : RegisterBody) (now : Z) :
  (exists logged,
     snd (tunnel_register P w body now) = Failure 400 "Bad request" logged \/
     snd (tunnel_register P w body now) = Failure 401 "Authentication failed" logged) /\
  tunnelObject (fst (tunnel_register P w body now)) = tunnelObject w.
Proof.
  unfold tunnel_register.
  destruct (present (r_clientId body)) as [c|];
    [|split; [eexists; left|]; reflexivity].
  destruct (present (r_tunnelUrl body)) as [url|];
    [|split; [eexists; left|]; reflexivity].
  destruct (present (r_token body)) as [tok|];
    [|split; [eexists; left|]; reflexivity].
  unfold tunnel_stub_fetch. cbn [fst snd].
  destruct (tunnel_get_no_token (tunnelObject w) ("http://internal/get/" +:+ c) tok now)
    as [Hsame Hshape].
  destruct (ok (snd (TunnelStorage.fetch P (tunnelObject w) _ now))) eqn:Hok.
  - rewrite (Hshape eq_refl). cbn [negb fst snd tunnelObject].
    split; [eexists; right; reflexivity|exact Hsame].
  - cbn [negb fst snd tunnelObject].
    split; [eexists; right; reflexivity|exact Hsame].
Qed.

End RegisterTheorems.

(** ** Runs on the concrete platform *)

Section Runs.
Import Utils Worker Concurrent Demo.

(** The entry /challenge left for "c1". *)
Lemma demo_issued_entry : challenge_entry issued "c1" = Some entry1.
Proof. vm_compute. reflexivity. Qed.

(** C3, as stated, fails: a request presenting another challenge than the
    stored one finds the entry, is refused, and the entry is still there
    at the end of the request. *)
Lemma mismatch_leaves_entry :
  ~ deleted_once_fetched platform env issued wrong_body amb1.
Proof.
  intros H.
  specialize (H "c1" "other" (sign "KEY1" "other") entry1
                eq_refl eq_refl eq_refl demo_issued_entry).
  vm_compute in H. discriminate H.
Qed.

(** C7, as the code has it: two requests with the valid challenge and
    signature, each reading the entry before the other deletes it, both
    run to the end and both succeed, so that it is not the case that exactly
    one of them succeeds. *)
Theorem overlapping_verify_both_succeed :
  snd (run platform env [0%nat; 1%nat; 0%nat; 1%nat] issued
         [Started good_body amb1; Started good_body amb2]) =
    [Finished (Success good_reply);
     Finished (Success (mkVerifyOk (token good_reply) "tokB" (secretData good_reply)
                          None))] /\
  ~ exactly_one_succeeds platform env [0%nat; 1%nat; 0%nat; 1%nat] issued
      [Started good_body amb1; Started good_body amb2].
Proof.
  split; [vm_compute; reflexivity|].
  unfold exactly_one_succeeds. intros H.
  assert (Hfin :
    forallb finished
      (snd (run platform env [0%nat; 1%nat; 0%nat; 1%nat] issued
              [Started good_body amb1; Started good_body amb2])) = true)
    by (vm_compute; reflexivity).
  specialize (H Hfin). vm_compute in H. discriminate H.
Qed.

(** The access token minted by /verify and stored with the tunnel record is
    refused by /tunnel/register. *)
Lemma register_with_issued_token_fails :
  snd (verify platform env issued good_body amb1) = Success good_reply /\
  accessToken good_reply = "tok" /\
  snd (tunnel_register platform (fst (verify platform env issued good_body amb1))
         (mkRegisterBody (Some "c1") (Some "https://t2.example") (Some "tok")) 3000)
  = Failure 401 "Authentication failed" "Invalid token for client: c1".
Proof. repeat split; vm_compute; reflexivity. Qed.

Lemma verify_consumes_entry_witness :
  challenge_entry issued "c1" = Some entry1 /\
  challenge_entry (fst (verify platform env issued wrong_body amb1)) "c1" = Some entry1 /\
  challenge_entry (fst (verify platform env issued wrong_body amb_late)) "c1" = None /\
  challenge_entry (fst (verify platform env issued good_body amb1)) "c1" = None.
Proof.
  split; [vm_compute; reflexivity|]. split; [|split].
  - apply (verify_consumes_entry platform env issued wrong_body amb1
             "c1" "other" (sign "KEY1" "other") entry1).
    + split; reflexivity.
    + reflexivity.
    + reflexivity.
    + reflexivity.
    + vm_compute; reflexivity.
    + vm_compute; discriminate.
    + discriminate.
  - apply (verify_consumes_entry platform env issued wrong_body amb_late
             "c1" "other" (sign "KEY1" "other") entry1).
    + split; reflexivity.
    + reflexivity.
    + reflexivity.
    + reflexivity.
    + vm_compute; reflexivity.
    + vm_compute; reflexivity.
  - apply (verify_consumes_entry platform env issued good_body amb1
             "c1" "nonce" (sign "KEY1" "nonce") entry1) with (pem := "KEY1")
             (key := "KEY1").
    + split; reflexivity.
    + reflexivity.
    + reflexivity.
    + reflexivity.
    + vm_compute; reflexivity.
    + vm_compute; discriminate.
    + reflexivity.
    + reflexivity.
    + discriminate.
    + reflexivity.
    + reflexivity.
Defined.

(** The identity "c 1": the URL parser rewrites its internal URL, and the
    challenge object named "c 1" holds its entry under the key "c 1". *)
Lemma demo_spaced_path :
  pathname platform ("http://internal/get/" +:+ "c 1") <> "/get/" +:+ "c 1".
Proof. vm_compute. discriminate. Qed.

Lemma demo_spaced_storage :
  challenge_storage issued_spaced "c 1" = <["c 1" := entry1]> ∅.
Proof. vm_compute. reflexivity. Qed.

Lemma demo_spaced_own_key (k : string) (e : ChallengeStorage.Entry) :
  challenge_storage issued_spaced "c 1" !! k = Some e -> k = "c 1".
Proof.
  rewrite demo_spaced_storage. intros H.
  apply lookup_insert_Some in H as [[<- _]|[_ H]]; [reflexivity|].
  now rewrite lookup_empty in H.
Qed.

Lemma verify_retry_never_finds_witness :
  challenge_entry issued_spaced "c 1" = Some entry1 /\
  snd (verify platform env issued_spaced (spaced_body "other") amb1) =
    Failure 401 "Authentication failed" "Challenge not found for client: c 1" /\
  challenge_entry (fst (verify platform env issued_spaced (spaced_body "other") amb1))
    "c 1" = Some entry1 /\
  snd (verify platform env
         (fst (verify platform env issued_spaced (spaced_body "other") amb1))
         (spaced_body "nonce") amb2) =
    Failure 401 "Authentication failed" "Challenge not found for client: c 1".
Proof.
  split; [vm_compute; reflexivity|].
  destruct (verify_retry_never_finds platform env issued_spaced (spaced_body "other")
              amb1 "c 1" "other" (sign "KEY2" "other") entry1)
    as (Hreply & Hkeep & Hlater).
  - reflexivity.
  - reflexivity.
  - reflexivity.
  - vm_compute; reflexivity.
  - exact demo_spaced_own_key.
  - exact demo_spaced_path.
  - vm_compute; discriminate.
  - discriminate.
  - split; [exact Hreply|]. split; [exact Hkeep|].
    apply (Hlater (spaced_body "nonce") amb2 (sign "KEY2" "nonce")).
    + reflexivity.
    + reflexivity.
    + reflexivity.
    + vm_compute; discriminate.
Defined.

Lemma verify_expired_not_deleted_witness :
  challenge_entry issued_spaced "c 1" = Some entry1 /\
  ChallengeStorage.expiresAt entry1 < now amb_late /\
  snd (verify platform env issued_spaced (spaced_body "nonce") amb_late) =
    Failure 401 "Authentication failed" "Challenge not found for client: c 1" /\
  challenge_entry
    (fst (verify platform env issued_spaced (spaced_body "nonce") amb_late)) "c 1"
  = Some entry1.
Proof.
  split; [vm_compute; reflexivity|]. split; [vm_compute; reflexivity|].
  apply (verify_expired_not_deleted platform env issued_spaced (spaced_body "nonce")
           amb_late "c 1" "nonce" (sign "KEY2" "nonce") entry1).
  - reflexivity.
  - reflexivity.
  - reflexivity.
  - vm_compute; reflexivity.
  - exact demo_spaced_own_key.
  - exact demo_spaced_path.
  - vm_compute; reflexivity.
Defined.

Lemma verify_single_use_witness :
  snd (verify platform env issued good_body amb1) = Success good_reply /\
  snd (verify platform env (fst (verify platform env issued good_body amb1))
         good_body amb2) =
    Failure 401 "Authentication failed" "Challenge not found for client: c1".
Proof.
  split; [vm_compute; reflexivity|].
  apply (verify_single_use platform env issued good_body good_body amb1 amb2
           "c1" "nonce" (sign "KEY1" "nonce") good_reply).
  - split; reflexivity.
  - reflexivity.
  - vm_compute; reflexivity.
  - reflexivity.
  - reflexivity.
  - reflexivity.
Defined.


Lemma store_keeps_createdAt_witness :
  stored_once !! "tunnel:c1" = Some record1 /\
  exists info,
    fst (TunnelStorage.fetch platform stored_once
           (TunnelStorage.store_request "c1" "https://t2.example" "tok") 2000)
      !! "tunnel:c1" = Some info /\
    TunnelStorage.createdAt info = 1000 /\
    TunnelStorage.updatedAt info = 2000 /\
    TunnelStorage.tunnelUrl info = "https://t2.example" /\
    bind (json (snd (TunnelStorage.fetch platform
                       (fst (TunnelStorage.fetch platform stored_once
                               (TunnelStorage.store_request "c1" "https://t2.example"
                                  "tok") 2000))
                       (mkRequest GET "http://internal/get/c1" None) 3000)))
      (fun a => bind (get a "data") (fun d => get d "tunnelUrl"))
    = Returned (JStr "https://t2.example") /\
    bind (json (snd (TunnelStorage.fetch platform
                       (fst (TunnelStorage.fetch platform stored_once
                               (TunnelStorage.store_request "c1" "https://t2.example"
                                  "tok") 2000))
                       (mkRequest GET "http://internal/get/c1" None) 3000)))
      (fun a => bind (get a "data") (fun d => get d "createdAt"))
    = Returned (JNum 1000).
Proof.
  split; [vm_compute; reflexivity|].
  destruct (store_keeps_createdAt platform stored_once record1
              "c1" "https://t2.example" "tok" 2000)
    as (info & Hget & Hcreated & Hupdated & Hurl & Hfetch).
  - apply TunnelStorage.reachable_fetch; [apply TunnelStorage.reachable_empty|lia].
  - vm_compute; reflexivity.
  - discriminate.
  - discriminate.
  - destruct (Hfetch "http://internal/get/c1" 3000 eq_refl)
      as (_ & _ & _ & Hjurl & Hjcreated & _).
    exists info. repeat split; assumption.
Defined.

Lemma store_discards_token_witness :
  bind (json (snd (TunnelStorage.fetch platform ∅
                     (TunnelStorage.store_request "c1" "https://t1.example" "tok") 1000)))
    (fun answer => bind (get answer "data") (fun data => get data "token"))
  = Returned JUndefined.
Proof.
  apply (store_discards_token platform ∅ "c1" "https://t1.example" "tok" 1000).
  - discriminate.
  - discriminate.
Defined.

End Runs.

(* ===================================================================== *)
(** * Further properties of the handlers *)
(* ===================================================================== *)

(** ** challenge.ts as a key-value object *)

Section ChallengeObject.
Import ChallengeStorage.
Context (P : Platform).

(** X1. Storing a challenge and then reading the same key answers 200 with
    exactly the challenge and expiry just stored, whatever the key held
    before; reading any other key answers as it did before the store. *)
Theorem challenge_store_then_get (st : gmap string Entry) (b : StoreBody)
    (get_url : string) :
  pathname P get_url = "/get/" +:+ b_clientId b ->
  let stored := fst (fetch P st (mkRequest POST "http://internal/store" (Some b))) in
  snd (fetch P stored (mkRequest GET get_url None)) =
    mkResponse 200 (Json (entry_json (mkEntry (b_challenge b) (b_expiresAt b)))) /\
  forall other other_url,
    other <> b_clientId b ->
    pathname P other_url = "/get/" +:+ other ->
    snd (fetch P stored (mkRequest GET other_url None)) =
    snd (fetch P st (mkRequest GET other_url None)).
Proof.
  intros Hp. cbv zeta. rewrite challenge_fetch_store. cbn [fst]. split.
  - rewrite (challenge_fetch_get P _ get_url (b_clientId b)) by assumption.
    cbn [snd]. now rewrite lookup_insert_eq.
  - intros other other_url Hne Hother.
    rewrite !(challenge_fetch_get P _ other_url other) by assumption.
    cbn [snd]. rewrite lookup_insert_ne by congruence. reflexivity.
Qed.

(** X2. Deleting a key answers 200 whether or not the key was present, and
    a read of that key afterwards answers 404 "Challenge not found". *)
Theorem challenge_delete_then_get (st : gmap string Entry)
    (k del_url get_url : string) :
  pathname P del_url = "/delete/" +:+ k ->
  pathname P get_url = "/get/" +:+ k ->
  snd (fetch P st (mkRequest DELETE del_url None)) =
    mkResponse 200 (Json (JObj [("success", JBool true)])) /\
  snd (fetch P (fst (fetch P st (mkRequest DELETE del_url None)))
         (mkRequest GET get_url None)) =
    mkResponse 404 (Json (JObj [("error", JStr "Challenge not found")])).
Proof.
  intros Hdel Hget.
  rewrite (challenge_fetch_delete P _ del_url k) by assumption. cbn [fst snd].
  split; [reflexivity|].
  rewrite (challenge_fetch_get P _ get_url k) by assumption.
  cbn [snd]. now rewrite lookup_delete_eq.
Qed.

(** X3. The only requests that change the storage are a POST to /store with
    a readable body, which writes one key, and a DELETE under /delete/, which
    removes one key; every other request leaves the storage as it was. *)
Theorem challenge_fetch_effect (st : gmap string Entry) (request : Request StoreBody) :
  fst (fetch P st request) = st \/
  (req_method request = POST /\ pathname P (req_url request) = "/store" /\
   exists b, req_body request = Some b /\
     fst (fetch P st request) =
       <[b_clientId b := mkEntry (b_challenge b) (b_expiresAt b)]> st) \/
  (req_method request = DELETE /\
   startsWith "/delete/" (pathname P (req_url request)) = true /\
   fst (fetch P st request) =
     delete (substring_from 8 (pathname P (req_url request))) st).
Proof.
  unfold fetch.
  destruct (String.eqb (pathname P (req_url request)) "/store") eqn:Hstore;
  destruct (req_method request) eqn:Hm; cbn [Method_eqb andb];
    rewrite ?andb_false_r, ?andb_true_r;
    try (destruct (startsWith "/get/" (pathname P (req_url request)));
         [destruct (st !! _)|]; now left);
    try (destruct (startsWith "/delete/" (pathname P (req_url request))) eqn:Hdel;
         [right; right; now repeat split|now left]);
    try now left.
  - destruct (req_body request) as [b|] eqn:Hb; [|now left].
    right. left. apply String.eqb_eq in Hstore. repeat split; try assumption.
    now exists b.
Qed.

End ChallengeObject.

(** ** tunnel-storage.ts as a registry *)

Section TunnelObject.
Import TunnelStorage.
Context (P : Platform).

Lemma startsWith_append (p s : string) : startsWith p (p +:+ s) = true.
Proof.
  induction p as [|a p IH]; [reflexivity|].
  rewrite append_cons. cbn [startsWith]. now rewrite Ascii.eqb_refl, IH.
Qed.

Lemma tunnel_key_inj (c c' : string) :
  "tunnel:" +:+ c = "tunnel:" +:+ c' -> c = c'.
Proof. intros H. repeat rewrite append_cons in H. now injection H. Qed.

Lemma tunnel_fetch_store_missing (st : gmap string TunnelInfo)
    (c url tok : string) (now : Z) :
  c = "" \/ url = "" ->
  fetch P st (store_request c url tok) now =
    (st, failure 400 "Missing clientId or tunnelUrl").
Proof.
  intros H. unfold fetch, store_request. simpl req_url.
  rewrite pathname_store. cbn [String.eqb Ascii.eqb Method_eqb andb req_method req_body
    b_clientId b_tunnelUrl]. simpl.
  destruct H as [-> | ->]; [reflexivity|].
  now rewrite orb_true_r.
Qed.

(** X4. A store whose [clientId] or [tunnelUrl] is empty is answered 400
    "Missing clientId or tunnelUrl" and writes nothing, so that a later fetch
    answers as it would have before. *)
Theorem tunnel_store_rejects_missing (st : gmap string TunnelInfo)
    (c url tok : string) (now : Z) :
  c = "" \/ url = "" ->
  snd (fetch P st (store_request c url tok) now) =
    failure 400 "Missing clientId or tunnelUrl" /\
  forall request later,
    fetch P (fst (fetch P st (store_request c url tok) now)) request later
    = fetch P st request later.
Proof.
  intros H. rewrite tunnel_fetch_store_missing by assumption. now split.
Qed.

(** X5. The first store for an identity creates its record with [createdAt]
    and [updatedAt] both equal to the time of the write, and answers with
    that record. *)
Theorem tunnel_first_store (st : gmap string TunnelInfo) (c url tok : string)
    (now : Z) :
  c <> "" -> url <> "" ->
  st !! ("tunnel:" +:+ c) = None ->
  fetch P st (store_request c url tok) now =
    (<["tunnel:" +:+ c := mkTunnelInfo c url now now]> st,
     success_data (info_json (mkTunnelInfo c url now now))).
Proof.
  intros Hc Hu Hnone. rewrite tunnel_fetch_store by assumption.
  cbv zeta. now rewrite Hnone.
Qed.

(** X6. After a delete of an identity, a fetch of that identity answers 404
    "Tunnel not found", whether or not a record existed; the records of other
    identities are not touched. *)
Theorem tunnel_delete_then_get (st : gmap string TunnelInfo)
    (c del_url get_url : string) (now later : Z) :
  c <> "" ->
  pathname P del_url = "/delete/" +:+ c ->
  pathname P get_url = "/get/" +:+ c ->
  let deleted := fst (fetch P st (mkRequest DELETE del_url None) now) in
  snd (fetch P deleted (mkRequest GET get_url None) later) =
    failure 404 "Tunnel not found" /\
  forall c', c' <> c -> deleted !! ("tunnel:" +:+ c') = st !! ("tunnel:" +:+ c').
Proof.
  intros Hc Hdel Hget. cbv zeta.
  assert (fst (fetch P st (mkRequest DELETE del_url None) now)
          = delete ("tunnel:" +:+ c) st) as ->.
  { unfold fetch. simpl req_url. rewrite Hdel. route.
    now rewrite (eqb_empty_false c). }
  split.
  - rewrite (tunnel_fetch_get P _ get_url c) by assumption.
    cbn [snd]. now rewrite lookup_delete_eq.
  - intros c' Hne. apply lookup_delete_ne.
    intros Heq. apply tunnel_key_inj in Heq. congruence.
Qed.

Lemma reachable_wf (st : gmap string TunnelInfo) :
  reachable P st ->
  forall k info,
    st !! k = Some info ->
    k = "tunnel:" +:+ clientId info /\ clientId info <> "" /\ tunnelUrl info <> "".
Proof.
  induction 1 as [|st request now Hreach IH Hnow]; intros k info.
  - now rewrite lookup_empty.
  - unfold fetch.
    destruct (String.eqb (pathname P (req_url request)) "/store"
              && Method_eqb (req_method request) POST).
    { destruct (req_body request) as [b|]; [|apply IH].
      destruct (String.eqb (b_clientId b) "") eqn:Ec; [apply IH|].
      destruct (String.eqb (b_tunnelUrl b) "") eqn:Eu; [apply IH|].
      cbn [orb fst].
      destruct (decide (("tunnel:" +:+ b_clientId b) = k)) as [<-|Hne].
      - rewrite lookup_insert_eq. intros [= <-]. cbn [clientId tunnelUrl].
        apply String.eqb_neq in Ec, Eu. now repeat split.
      - rewrite lookup_insert_ne by assumption. apply IH. }
    destruct (startsWith "/get/" (pathname P (req_url request))
              && Method_eqb (req_method request) GET).
    { destruct (String.eqb _ ""); [apply IH|]. destruct (st !! _); apply IH. }
    destruct (String.eqb (pathname P (req_url request)) "/list"
              && Method_eqb (req_method request) GET); [apply IH|].
    destruct (startsWith "/delete/" (pathname P (req_url request))
              && Method_eqb (req_method request) DELETE); [|apply IH].
    destruct (String.eqb _ ""); [apply IH|]. cbn [fst].
    intros Hk. apply lookup_delete_Some in Hk. eapply IH, Hk.
Qed.

(** X7. In every storage the object can reach, a record sits under the key
    "tunnel:" followed by its own [clientId], and neither its [clientId] nor
    its [tunnelUrl] is empty: a fetch of an identity answers with a record
    of that identity. *)
Theorem reachable_records_wellformed (st : gmap string TunnelInfo)
    (k : string) (info : TunnelInfo) :
  reachable P st ->
  st !! k = Some info ->
  k = "tunnel:" +:+ clientId info /\ clientId info <> "" /\ tunnelUrl info <> "".
Proof. intros Hreach. now apply reachable_wf. Qed.

Lemma filter_all {A} (f : A -> bool) (l : list A) :
  (forall x, In x l -> f x = true) -> List.filter f l = l.
Proof.
  induction l as [|a l IH]; intros H; [reflexivity|].
  cbn [List.filter]. rewrite (H a) by now left.
  f_equal. apply IH. intros x Hx. apply H. now right.
Qed.

(** X8. The listing of a reachable storage leaves nothing out: [count] is
    the number of stored records, [data] has as many items, and an item is
    in [data] exactly when it is the JSON of a stored record. *)
Theorem tunnel_list_complete (st : gmap string TunnelInfo) (url : string)
    (b : option StoreBody) (now : Z) :
  reachable P st ->
  pathname P url = "/list" ->
  exists items,
    fetch P st (mkRequest GET url b) now =
      (st,
       mkResponse 200
         (Json (JObj [("success", JBool true); ("data", JArr items);
                      ("count", JNum (Z.of_nat (size st)))]))) /\
    List.length items = size st /\
    forall v,
      In v items <-> exists k info, st !! k = Some info /\ v = info_json info.
Proof.
  intros Hreach Hp.
  assert (fetch P st (mkRequest GET url b) now =
    (st,
     mkResponse 200
       (Json (JObj [("success", JBool true);
                    ("data", JArr (List.map (fun kv => info_json (snd kv))
                       (List.filter (fun kv => startsWith "tunnel:" (fst kv))
                          (map_to_list st))));
                    ("count", JNum (Z.of_nat (List.length
                       (List.map (fun kv => info_json (snd kv))
                          (List.filter (fun kv => startsWith "tunnel:" (fst kv))
                             (map_to_list st))))))])))) as ->.
  { unfold fetch. simpl req_url. rewrite Hp. reflexivity. }
  rewrite filter_all.
  2:{ intros [k info] Hin. cbn [fst].
      apply list_elem_of_In, elem_of_map_to_list in Hin.
      destruct (reachable_wf st Hreach k info Hin) as [-> _].
      apply startsWith_append. }
  rewrite length_map, length_map_to_list.
  eexists. split; [reflexivity|]. split.
  - now rewrite length_map, length_map_to_list.
  - intros v. rewrite in_map_iff. split.
    + intros [[k info] [<- Hin]].
      apply list_elem_of_In, elem_of_map_to_list in Hin. now exists k, info.
    + intros (k & info & Hk & ->). exists (k, info). split; [reflexivity|].
      now apply list_elem_of_In, elem_of_map_to_list.
Qed.

(** X9. A store for one identity leaves the record of every other identity
    as it was. *)
Theorem tunnel_store_frame (st : gmap string TunnelInfo) (c c' url tok : string)
    (now : Z) :
  c' <> c ->
  fst (fetch P st (store_request c url tok) now) !! ("tunnel:" +:+ c')
  = st !! ("tunnel:" +:+ c').
Proof.
  intros Hne.
  destruct (String.eqb c "") eqn:Ec.
  { apply String.eqb_eq in Ec.
    now rewrite tunnel_fetch_store_missing by (now left). }
  destruct (String.eqb url "") eqn:Eu.
  { apply String.eqb_eq in Eu.
    now rewrite tunnel_fetch_store_missing by (now right). }
  apply String.eqb_neq in Ec, Eu.
  rewrite tunnel_fetch_store by assumption. cbn [fst].
  apply lookup_insert_ne. intros Heq. apply tunnel_key_inj in Heq. congruence.
Qed.

End TunnelObject.

(** ** index.ts: /challenge and how it composes with /verify *)

Section ChallengeHandler.
Import Utils Worker.
Context (P : Platform) (env : Env).

Lemma challenge_accepted (w : World) (c ch : string) (m : member) (t0 : Z)
    (bytes : string) :
  c <> "" ->
  client_key P env c = Returned m ->
  member_truthy m = true ->
  generateChallenge P bytes = Returned ch ->
  challenge P env w (Some c) t0 bytes =
    (set_challenge_storage w c
       (<[c := ChallengeStorage.mkEntry ch (t0 + 300000)]> (challenge_storage w c)),
     Success (mkChallengeOk ch (t0 + 300000))).
Proof.
  intros Hc Hm Ht Hch. unfold challenge. rewrite present_intro by assumption.
  rewrite Hm, Ht, Hch. cbn [negb]. unfold challenge_stub_fetch.
  rewrite challenge_fetch_store. reflexivity.
Qed.

(** X10. The outcomes of /challenge. Without a [clientId] it answers 400;
    when reading the identity off the parsed client list throws (the list is
    [null]) or the base64 encoding throws it answers 500; when
    [authorizedClients[clientId]] is falsy it answers 401; in all these cases
    the world is exactly as before. Whenever that value is truthy, be it a
    provisioned key or a member every object inherits, it answers the base64
    of the random bytes with an expiry five minutes (300000 ms) after the
    clock reading, and that very pair is now the entry of the identity,
    replacing whatever entry it had; no other challenge object and no tunnel
    record is touched. *)
Theorem challenge_outcome (w : World) (clientId : option string) (t0 : Z)
    (bytes : string) :
  match snd (challenge P env w clientId t0 bytes) with
  | Failure st err lg =>
      fst (challenge P env w clientId t0 bytes) = w /\
      ((st = 400 /\ err = "Bad request" /\ present clientId = None) \/
       (st = 401 /\ err = "Authentication failed" /\
        exists c m, present clientId = Some c /\
                    client_key P env c = Returned m /\ member_truthy m = false) \/
       (st = 500 /\ err = "Internal error" /\
        exists c, present clientId = Some c /\
                  (client_key P env c = Thrown \/
                   generateChallenge P bytes = Thrown)))
  | Success answer =>
      exists c m,
        present clientId = Some c /\
        client_key P env c = Returned m /\ member_truthy m = true /\
        generateChallenge P bytes = Returned (c_challenge answer) /\
        c_expiresAt answer = t0 + 300000 /\
        challenge_entry (fst (challenge P env w clientId t0 bytes)) c =
          Some (ChallengeStorage.mkEntry (c_challenge answer) (c_expiresAt answer)) /\
        (forall name, name <> c ->
           challenge_storage (fst (challenge P env w clientId t0 bytes)) name
           = challenge_storage w name) /\
        tunnelObject (fst (challenge P env w clientId t0 bytes)) = tunnelObject w
  end.
Proof.
  destruct (present clientId) as [c|] eqn:Hc.
  2:{ unfold challenge. rewrite Hc. cbn [fst snd]. split; [reflexivity|].
      left. now repeat split. }
  destruct (present_Some _ _ Hc) as [-> Hne].
  destruct (client_key P env c) as [m|] eqn:Hm.
  2:{ unfold challenge. rewrite Hc, Hm. cbn [fst snd]. split; [reflexivity|].
      right. right. split; [reflexivity|]. split; [reflexivity|].
      exists c. split; [reflexivity|now left]. }
  destruct (member_truthy m) eqn:Ht.
  2:{ unfold challenge. rewrite Hc, Hm, Ht. cbn [negb fst snd].
      split; [reflexivity|]. right. left.
      split; [reflexivity|]. split; [reflexivity|]. exists c, m.
      split; [reflexivity|]. now split. }
  destruct (generateChallenge P bytes) as [ch|] eqn:Hch.
  2:{ unfold challenge. rewrite Hc, Hm, Ht, Hch. cbn [negb fst snd].
      split; [reflexivity|]. right. right.
      split; [reflexivity|]. split; [reflexivity|].
      exists c. split; [reflexivity|now right]. }
  rewrite (challenge_accepted w c ch m) by assumption. cbn [fst snd].
  exists c, m. split; [reflexivity|]. split; [assumption|].
  split; [assumption|]. split; [reflexivity|]. split; [reflexivity|].
  split; [|split; [|reflexivity]].
  - unfold challenge_entry. rewrite challenge_storage_set_eq.
    apply lookup_insert_eq.
  - intros name Hname. apply challenge_storage_set_ne. congruence.
Qed.

(** Whether the second part of /verify succeeds is whether minting does. *)
Lemma verify_issue_success (w : World) (c : string) (body : VerifyBody)
    (amb : Ambient) :
  Concurrent.is_success (snd (verify_issue P env w c body amb)) =
    match Auth.generateJWT P c (jwtSecret env) (now amb),
          generateToken P (random amb) with
    | Returned _, Returned _ => true
    | _, _ => false
    end.
Proof.
  unfold verify_issue.
  destruct (Auth.generateJWT P c (jwtSecret env) (now amb)); [|reflexivity].
  destruct (generateToken P (random amb)); reflexivity.
Qed.

(** X11. A challenge lives exactly five minutes. For an identity the URL
    parser leaves unchanged, after /challenge at clock reading [t0], a
    /verify that presents the issued challenge with a signature that
    verifies under the identity's key succeeds exactly when its clock
    reading is at most [t0 + 300000] and minting the compact token and the
    access token does not throw. *)
Theorem challenge_then_verify (w : World) (c ch pem sg : string)
    (key : CryptoKey P) (t0 : Z) (bytes : string)
    (ru ge tu : option string) (irl : bool) (amb : Ambient) :
  path_safe P c ->
  c <> "" -> sg <> "" -> ch <> "" -> pem <> "" ->
  generateChallenge P bytes = Returned ch ->
  client_key P env c = Returned (StringMember pem) ->
  Auth.importPublicKey P pem = Returned key ->
  Auth.verifySignature P key ch sg = Returned true ->
  Concurrent.is_success
    (snd (verify P env (fst (challenge P env w (Some c) t0 bytes))
            (mkVerifyBody (Some c) (Some ch) (Some sg) ru ge irl tu) amb))
  = (now amb <=? t0 + 300000) &&
    match Auth.generateJWT P c (jwtSecret env) (now amb),
          generateToken P (random amb) with
    | Returned _, Returned _ => true
    | _, _ => false
    end.
Proof.
  intros Hsafe Hc Hsg Hch Hpem Hgen Hm Hkey Hv.
  rewrite (challenge_accepted w c ch (StringMember pem)); try assumption.
  2:{ cbn [member_truthy]. now rewrite (eqb_empty_false _ Hpem). }
  cbn [fst].
  edestruct (verify_entry_after P env) as [_ Hsucc];
    [exact Hsafe| | | | |rewrite Hsucc].
  - cbn [v_clientId]. now apply present_intro.
  - cbn [v_challenge]. now apply present_intro.
  - cbn [v_signature]. now apply present_intro.
  - unfold challenge_entry. rewrite challenge_storage_set_eq.
    apply lookup_insert_eq.
  - cbn [ChallengeStorage.expiresAt ChallengeStorage.challenge].
    assert (check_signature P env c ch sg = Accepted c) as ->.
    { apply check_signature_accepted. split; [reflexivity|]. now exists pem, key. }
    rewrite String.eqb_refl, verify_issue_success.
    rewrite !andb_true_r. f_equal. symmetry. apply Z.leb_antisym.
Qed.

(** X12. Only the most recent challenge of an identity is valid. For an
    identity the URL parser leaves unchanged, after two /challenge requests
    that produced different values, a /verify presenting the first value
    before expiry is answered 401 "Authentication failed" (logged as a
    mismatch), even with a signature made for that value. *)
Theorem challenge_replaces_previous (w : World) (c ch1 ch2 sg : string)
    (m : member) (t1 t2 : Z) (bytes1 bytes2 : string)
    (ru ge tu : option string) (irl : bool) (amb : Ambient) :
  path_safe P c ->
  c <> "" -> sg <> "" -> ch1 <> "" ->
  client_key P env c = Returned m -> member_truthy m = true ->
  generateChallenge P bytes1 = Returned ch1 ->
  generateChallenge P bytes2 = Returned ch2 ->
  ch2 <> ch1 ->
  now amb <= t2 + 300000 ->
  let w1 := fst (challenge P env w (Some c) t1 bytes1) in
  let w2 := fst (challenge P env w1 (Some c) t2 bytes2) in
  snd (verify P env w2
         (mkVerifyBody (Some c) (Some ch1) (Some sg) ru ge irl tu) amb)
  = Failure 401 "Authentication failed" ("Challenge mismatch for client: " +:+ c).
Proof.
  intros Hsafe Hc Hsg Hch Hm Ht Hg1 Hg2 Hdiff Hle. cbv zeta.
  rewrite (challenge_accepted w c ch1 m t1 bytes1) by assumption. cbn [fst].
  rewrite (challenge_accepted _ c ch2 m t2 bytes2) by assumption. cbn [fst].
  unfold verify.
  erewrite (verify_checks_mismatch P env _ _ (now amb) c ch1 sg Hsafe).
  - reflexivity.
  - cbn [v_clientId]. now apply present_intro.
  - cbn [v_challenge]. now apply present_intro.
  - cbn [v_signature]. now apply present_intro.
  - unfold challenge_entry. rewrite challenge_storage_set_eq.
    apply lookup_insert_eq.
  - exact Hle.
  - exact Hdiff.
Qed.

End ChallengeHandler.

(** ** index.ts: what /verify touches and what it answers *)

Section VerifyEffects.
Import Utils Worker.
Context (P : Platform) (env : Env).

Lemma challenge_stub_frame (w : World) (c name : string)
    (request : Request ChallengeStorage.StoreBody) :
  name <> c ->
  challenge_storage (fst (challenge_stub_fetch P w c request)) name
  = challenge_storage w name.
Proof.
  intros Hne. unfold challenge_stub_fetch. cbn [fst].
  apply challenge_storage_set_ne. congruence.
Qed.

(** Destructs every test of a handler body. *)
Ltac split_cases :=
  repeat match goal with
  | |- context [match ?x with _ => _ end] =>
      match type of x with
      | sumbool _ _ => fail 1
      | _ => destruct x
      end
  end.

Lemma verify_checks_frame (w : World) (body : VerifyBody) (t : Z) :
  tunnelObject (fst (verify_checks P env w body t)) = tunnelObject w /\
  forall name,
    present (v_clientId body) <> Some name ->
    challenge_storage (fst (verify_checks P env w body t)) name
    = challenge_storage w name.
Proof.
  unfold verify_checks.
  destruct (present (v_clientId body)) as [c|]; [|now split].
  destruct (present (v_challenge body)) as [ch|]; [|now split].
  destruct (present (v_signature body)) as [sg|]; [|now split].
  split_cases; cbn [fst]; (split; [reflexivity|]);
    intros name Hname;
    rewrite ?challenge_stub_frame by congruence; reflexivity.
Qed.

Lemma check_signature_rejected (c ch sg : string) (st : Z) (err lg : string) :
  check_signature P env c ch sg = Rejected st err lg ->
  (st = 401 /\ err = "Authentication failed" /\
   (lg = "Public key not found for client: " +:+ c \/
    lg = "Invalid signature for client: " +:+ c)) \/
  (st = 500 /\ err = "Internal error" /\ lg = "Internal error:").
Proof.
  unfold check_signature.
  split_cases; intros H; try discriminate H; injection H as <- <- <-;
    auto 6.
Qed.

Lemma verify_checks_rejected (w w1 : World) (body : VerifyBody) (t : Z)
    (st : Z) (err lg : string) :
  verify_checks P env w body t = (w1, Rejected st err lg) ->
  (st = 400 /\ err = "Bad request" /\
   lg = "Missing fields in /verify request" /\ w1 = w) \/
  (st = 401 /\ err = "Authentication failed" /\
   exists c,
     present (v_clientId body) = Some c /\
     (lg = "Challenge not found for client: " +:+ c \/
      lg = "Challenge expired for client: " +:+ c \/
      lg = "Challenge mismatch for client: " +:+ c \/
      lg = "Public key not found for client: " +:+ c \/
      lg = "Invalid signature for client: " +:+ c)) \/
  (st = 500 /\ err = "Internal error" /\ lg = "Internal error:").
Proof.
  unfold verify_checks.
  destruct (present (v_clientId body)) as [c|];
    [|intros [= <- <- <- <-]; left; now repeat split].
  destruct (present (v_challenge body)) as [ch|];
    [|intros [= <- <- <- <-]; left; now repeat split].
  destruct (present (v_signature body)) as [sg|];
    [|intros [= <- <- <- <-]; left; now repeat split].
  assert (Hfinish : forall st' err' lg',
    (st' = 401 /\ err' = "Authentication failed" /\
     (lg' = "Challenge not found for client: " +:+ c \/
      lg' = "Challenge expired for client: " +:+ c \/
      lg' = "Challenge mismatch for client: " +:+ c \/
      lg' = "Public key not found for client: " +:+ c \/
      lg' = "Invalid signature for client: " +:+ c)) \/
    (st' = 500 /\ err' = "Internal error" /\ lg' = "Internal error:") ->
    forall w', (w', Rejected st' err' lg') = (w1, Rejected st err lg) ->
    (st = 400 /\ err = "Bad request" /\
     lg = "Missing fields in /verify request" /\ w1 = w) \/
    (st = 401 /\ err = "Authentication failed" /\
     exists c0,
       Some c = Some c0 /\
       (lg = "Challenge not found for client: " +:+ c0 \/
        lg = "Challenge expired for client: " +:+ c0 \/
        lg = "Challenge mismatch for client: " +:+ c0 \/
        lg = "Public key not found for client: " +:+ c0 \/
        lg = "Invalid signature for client: " +:+ c0)) \/
    (st = 500 /\ err = "Internal error" /\ lg = "Internal error:")).
  { intros st' err' lg' Hrow w' [= _ <- <- <-]. right.
    destruct Hrow as [(-> & -> & Hlg)|Hrow]; [left|now right].
    split; [reflexivity|]. split; [reflexivity|]. now exists c. }
  split_cases;
    try (apply Hfinish; auto 10; fail).
  intros H.
  destruct (check_signature P env c ch sg) as [st' err' lg'|c'] eqn:Hsig;
    [|discriminate H].
  revert H. apply Hfinish.
  apply check_signature_rejected in Hsig
    as [(-> & -> & [->| ->])|(-> & -> & ->)]; auto 10.
Qed.

(** What the challenge object answers to the lookup of /verify: a miss, or
    200 with the entry it holds. *)
Lemma challenge_lookup_answers (w : World) (c url : string) :
  let response := snd (challenge_stub_fetch P w c (mkRequest GET url None)) in
  ok response = false \/
  exists e, response = mkResponse 200 (Json (ChallengeStorage.entry_json e)).
Proof.
  cbv zeta. unfold challenge_stub_fetch, ChallengeStorage.fetch.
  cbn [fst snd req_method req_url req_body Method_eqb].
  rewrite !andb_false_r, !andb_true_r.
  destruct (startsWith "/get/" (pathname P url)); [|now left].
  destruct (challenge_storage w c !! _) as [e|]; [right; now exists e|now left].
Qed.

(** The rejections of /verify in terms of what the handler observes. *)
Lemma verify_checks_observed (w : World) (body : VerifyBody) (t : Z)
    (c ch sg : string) :
  present (v_clientId body) = Some c ->
  present (v_challenge body) = Some ch ->
  present (v_signature body) = Some sg ->
  let response :=
    snd (challenge_stub_fetch P w c
           (mkRequest GET ("http://internal/get/" +:+ c) None)) in
  (ok response = false ->
   snd (verify_checks P env w body t) =
     Rejected 401 "Authentication failed" ("Challenge not found for client: " +:+ c)) /\
  (forall e,
     response = mkResponse 200 (Json (ChallengeStorage.entry_json e)) ->
     snd (verify_checks P env w body t) =
       if ChallengeStorage.expiresAt e <? t then
         Rejected 401 "Authentication failed" ("Challenge expired for client: " +:+ c)
       else if negb (String.eqb (ChallengeStorage.challenge e) ch) then
         Rejected 401 "Authentication failed" ("Challenge mismatch for client: " +:+ c)
       else check_signature P env c ch sg).
Proof.
  intros Hc Hch Hsg. cbv zeta. unfold verify_checks. rewrite Hc, Hch, Hsg.
  cbv zeta. split.
  - intros ->. reflexivity.
  - intros e ->. change (ok _) with true. simpl.
    destruct (ChallengeStorage.expiresAt e <? t); [reflexivity|].
    destruct (String.eqb (ChallengeStorage.challenge e) ch); reflexivity.
Qed.

Lemma check_signature_no_key (c ch sg : string) (m : member) :
  client_key P env c = Returned m -> member_truthy m = false ->
  check_signature P env c ch sg =
    Rejected 401 "Authentication failed" ("Public key not found for client: " +:+ c).
Proof. intros Hm Ht. unfold check_signature. now rewrite Hm, Ht. Qed.

Lemma check_signature_invalid (c ch sg pem : string) (key : CryptoKey P) :
  client_key P env c = Returned (StringMember pem) -> pem <> "" ->
  Auth.importPublicKey P pem = Returned key ->
  Auth.verifySignature P key ch sg = Returned false ->
  check_signature P env c ch sg =
    Rejected 401 "Authentication failed" ("Invalid signature for client: " +:+ c).
Proof.
  intros Hm Hp Hk Hv. unfold check_signature. rewrite Hm. cbn [member_truthy].
  rewrite (eqb_empty_false _ Hp). cbn [negb]. rewrite Hk. cbn [bind].
  now rewrite Hv.
Qed.

(** X13. What the caller of /verify sees of a failure. Every failure is
    400 "Bad request" (missing fields, and then nothing at all was touched),
    401 "Authentication failed" with one of five log lines, or 500 "Internal
    error" (something threw). And each of the five causes the handler tells
    apart in its log is answered with that same 401 "Authentication failed":
    the challenge object answers the lookup with a miss; it answers with an
    entry that has expired; with an unexpired entry whose challenge differs
    from the presented one; the entry matches but the identity's key reads
    as falsy; the key is a string that imports but the signature does not
    verify under it. The lookup has no other answer than a miss or an
    entry. *)
Theorem verify_failure_generic (w : World) (body : VerifyBody) (amb : Ambient) :
  match snd (verify P env w body amb) with
  | Failure st err lg =>
      (st = 400 /\ err = "Bad request" /\
       lg = "Missing fields in /verify request" /\
       fst (verify P env w body amb) = w) \/
      (st = 401 /\ err = "Authentication failed" /\
       exists c,
         present (v_clientId body) = Some c /\
         (lg = "Challenge not found for client: " +:+ c \/
          lg = "Challenge expired for client: " +:+ c \/
          lg = "Challenge mismatch for client: " +:+ c \/
          lg = "Public key not found for client: " +:+ c \/
          lg = "Invalid signature for client: " +:+ c)) \/
      (st = 500 /\ err = "Internal error" /\ lg = "Internal error:")
  | Success _ => True
  end /\
  forall c ch sg,
    present (v_clientId body) = Some c ->
    present (v_challenge body) = Some ch ->
    present (v_signature body) = Some sg ->
    let response :=
      snd (challenge_stub_fetch P w c
             (mkRequest GET ("http://internal/get/" +:+ c) None)) in
    let refused lg :=
      snd (verify P env w body amb) =
        Failure 401 "Authentication failed" (lg +:+ c) in
    (ok response = false \/
     exists e, response = mkResponse 200 (Json (ChallengeStorage.entry_json e))) /\
    (ok response = false -> refused "Challenge not found for client: ") /\
    (forall e,
       response = mkResponse 200 (Json (ChallengeStorage.entry_json e)) ->
       (ChallengeStorage.expiresAt e < now amb ->
        refused "Challenge expired for client: ") /\
       (now amb <= ChallengeStorage.expiresAt e ->
        ChallengeStorage.challenge e <> ch ->
        refused "Challenge mismatch for client: ") /\
       (now amb <= ChallengeStorage.expiresAt e ->
        ChallengeStorage.challenge e = ch ->
        (forall m,
           client_key P env c = Returned m -> member_truthy m = false ->
           refused "Public key not found for client: ") /\
        (forall pem key,
           client_key P env c = Returned (StringMember pem) -> pem <> "" ->
           Auth.importPublicKey P pem = Returned key ->
           Auth.verifySignature P key ch sg = Returned false ->
           refused "Invalid signature for client: "))).
Proof.
  split.
  { unfold verify.
    destruct (verify_checks P env w body (now amb)) as [w1 [st err lg|c]] eqn:Hchecks;
      cbn [fst snd].
    - exact (verify_checks_rejected _ _ _ _ _ _ _ Hchecks).
    - unfold verify_issue, internal_error.
      destruct (Auth.generateJWT P c (jwtSecret env) (now amb));
        [|right; right; now repeat split].
      destruct (generateToken P (random amb));
        [exact I|right; right; now repeat split]. }
  intros c ch sg Hc Hch Hsg. cbv zeta.
  destruct (verify_checks_observed w body (now amb) c ch sg Hc Hch Hsg)
    as [Hmiss Hfound].
  assert (Hreply : forall lg,
    snd (verify_checks P env w body (now amb)) =
      Rejected 401 "Authentication failed" lg ->
    snd (verify P env w body amb) = Failure 401 "Authentication failed" lg).
  { intros lg. unfold verify.
    destruct (verify_checks P env w body (now amb)) as [w1 [st err lg'|c']];
      cbn [snd]; [now intros [= -> -> ->]|discriminate]. }
  split; [apply challenge_lookup_answers|].
  split; [intros Hok; apply Hreply; now apply Hmiss|].
  intros e He. specialize (Hfound e He). split; [|split].
  - intros Hlt. apply Hreply. rewrite Hfound.
    apply Z.ltb_lt in Hlt. now rewrite Hlt.
  - intros Hle Hne. apply Hreply. rewrite Hfound.
    apply Z.ltb_ge in Hle. apply String.eqb_neq in Hne. now rewrite Hle, Hne.
  - intros Hle Heq. apply Z.ltb_ge in Hle. apply String.eqb_eq in Heq.
    rewrite Hle, Heq in Hfound. cbn [negb] in Hfound. split.
    + intros m Hm Ht. apply Hreply. rewrite Hfound.
      now apply (check_signature_no_key c ch sg m).
    + intros pem key Hm Hp Hk Hv. apply Hreply. rewrite Hfound.
      now apply (check_signature_invalid c ch sg pem key).
Qed.

Lemma verify_issue_tunnel (w : World) (c : string) (body : VerifyBody)
    (amb : Ambient) :
  c <> "" ->
  tunnelObject (fst (verify_issue P env w c body amb)) =
    match snd (verify_issue P env w c body amb), present (v_tunnelUrl body) with
    | Success _, Some url =>
        <["tunnel:" +:+ c :=
            TunnelStorage.mkTunnelInfo c url (now amb)
              (TunnelStorage.createdAt_or (tunnelObject w !! ("tunnel:" +:+ c))
                 (now amb))]> (tunnelObject w)
    | _, _ => tunnelObject w
    end.
Proof.
  intros Hc. unfold verify_issue.
  destruct (Auth.generateJWT P c (jwtSecret env) (now amb)); [|reflexivity].
  destruct (generateToken P (random amb)) as [acc|]; [|reflexivity].
  cbn [fst snd].
  destruct (present (v_tunnelUrl body)) as [url|] eqn:Hurl; [|reflexivity].
  destruct (present_Some _ _ Hurl) as [_ Hu].
  unfold tunnel_stub_fetch. cbn [fst tunnelObject].
  change (mkRequest POST "http://internal/store"
            (Some (TunnelStorage.mkStoreBody c url acc)))
    with (TunnelStorage.store_request c url acc).
  rewrite tunnel_fetch_store by assumption. reflexivity.
Qed.

Lemma verify_tunnelObject (w : World) (body : VerifyBody) (amb : Ambient) :
  tunnelObject (fst (verify P env w body amb)) =
    match snd (verify P env w body amb), present (v_clientId body),
          present (v_tunnelUrl body) with
    | Success _, Some c, Some url =>
        <["tunnel:" +:+ c :=
            TunnelStorage.mkTunnelInfo c url (now amb)
              (TunnelStorage.createdAt_or (tunnelObject w !! ("tunnel:" +:+ c))
                 (now amb))]> (tunnelObject w)
    | _, _, _ => tunnelObject w
    end.
Proof.
  unfold verify.
  pose proof (verify_checks_frame w body (now amb)) as [Htun _].
  destruct (verify_checks P env w body (now amb)) as [w1 [st err lg|c]] eqn:Hchecks;
    cbn [fst snd] in *; [assumption|].
  pose proof (verify_checks_accepted P env _ _ _ _ _ Hchecks) as Hc.
  rewrite Hc. destruct (present_Some _ _ Hc) as [_ Hne].
  rewrite verify_issue_tunnel by assumption. rewrite Htun.
  destruct (snd (verify_issue P env w1 c body amb)); [reflexivity|].
  now destruct (present (v_tunnelUrl body)).
Qed.

(** X14. /verify works on the challenge object of the identity it names and
    on no other: the storage of every other challenge object is the same
    after the request as before, whatever the outcome. *)
Theorem verify_touches_own_object_only (w : World) (body : VerifyBody)
    (amb : Ambient) (name : string) :
  present (v_clientId body) <> Some name ->
  challenge_storage (fst (verify P env w body amb)) name = challenge_storage w name.
Proof.
  intros Hname. unfold verify.
  pose proof (verify_checks_frame w body (now amb)) as [_ Hframe].
  destruct (verify_checks P env w body (now amb)) as [w1 [st err lg|c]] eqn:Hchecks;
    cbn [fst snd] in *; [now apply Hframe|].
  pose proof (verify_checks_accepted P env _ _ _ _ _ Hchecks) as Hc.
  unfold verify_issue.
  destruct (Auth.generateJWT P c (jwtSecret env) (now amb));
    [destruct (generateToken P (random amb))|]; cbn [fst];
    try (destruct (present (v_tunnelUrl body)));
    rewrite ?challenge_storage_tunnel;
    (rewrite challenge_stub_frame by congruence); now apply Hframe.
Qed.

(** X15. The tunnel record is written by /verify on success only. A request
    that fails leaves the tunnel records as they were; so does a successful
    one without [tunnelUrl]. A successful one with [tunnelUrl] writes the
    record of the identity with that URL and the time of the request,
    keeping the [createdAt] of a record already there. *)
Theorem verify_registers_tunnel (w : World) (body : VerifyBody) (amb : Ambient) :
  match snd (verify P env w body amb) with
  | Failure _ _ _ => tunnelObject (fst (verify P env w body amb)) = tunnelObject w
  | Success _ =>
      exists c,
        present (v_clientId body) = Some c /\
        match present (v_tunnelUrl body) with
        | None => tunnelObject (fst (verify P env w body amb)) = tunnelObject w
        | Some url =>
            tunnelObject (fst (verify P env w body amb)) =
              <["tunnel:" +:+ c :=
                  TunnelStorage.mkTunnelInfo c url (now amb)
                    (TunnelStorage.createdAt_or
                       (tunnelObject w !! ("tunnel:" +:+ c)) (now amb))]>
                (tunnelObject w)
        end
  end.
Proof.
  rewrite verify_tunnelObject.
  destruct (snd (verify P env w body amb)) as [st err lg|okv] eqn:Hreply;
    [reflexivity|].
  destruct (verify_success_fields P env _ _ _ _ Hreply) as (c & ch & sg & Hc & _).
  exists c. rewrite Hc. split; [reflexivity|].
  now destruct (present (v_tunnelUrl body)).
Qed.

End VerifyEffects.

(** ** index.ts: the read routes and the dispatch *)

Section RouterFacts.
Import Utils Worker Router.
Context (P : Platform) (env : Env).

Lemma world_eta (w : World) : mkWorld (challengeObjects w) (tunnelObject w) = w.
Proof. now destruct w. Qed.

(** A GET on the tunnel object, whatever its URL, changes nothing. *)
Lemma tunnel_stub_get_same (w : World) (url : string) (t : Z) :
  fst (tunnel_stub_fetch P w (mkRequest GET url None) t) = w.
Proof.
  unfold tunnel_stub_fetch. cbn [fst].
  destruct (tunnel_get_no_token P (tunnelObject w) url "" t) as [-> _].
  apply world_eta.
Qed.

Lemma tunnel_get_same (w : World) (path : string) (header : option string)
    (hostname : string) (t : Z) :
  fst (tunnel_get P w path header hostname t) = w.
Proof.
  unfold tunnel_get.
  destruct (String.eqb _ ""); [reflexivity|].
  destruct (negb _); [reflexivity|].
  destruct (negb _); [apply tunnel_stub_get_same|].
  destruct (json _); apply tunnel_stub_get_same.
Qed.

Lemma tunnels_same (w : World) (header : option string) (hostname : string) (t : Z) :
  fst (tunnels P w header hostname t) = w.
Proof.
  unfold tunnels.
  destruct (negb _); [apply tunnel_stub_get_same|].
  destruct (json _); apply tunnel_stub_get_same.
Qed.

(** X16. GET /tunnel/{clientId} answers the record only to a caller that
    carries the header [X-Service-Binding: true] or reaches the worker under
    the host name "fake-host" or one ending in ".internal"; any other caller
    naming an identity gets 401 "Unauthorized" and nothing is read. An empty
    identity is answered 400 "Bad request" before that test. *)
Theorem tunnel_get_gate (w : World) (path : string) (header : option string)
    (hostname : string) (t : Z) :
  (substring_from 8 path = "" ->
   tunnel_get P w path header hostname t = (w, Failure 400 "Bad request" "")) /\
  (substring_from 8 path <> "" ->
   isServiceBindingRequest header hostname = false ->
   tunnel_get P w path header hostname t =
     (w, Failure 401 "Unauthorized" "Unauthorized access to /tunnel/{clientId}")) /\
  (forall v,
     snd (tunnel_get P w path header hostname t) = Success v ->
     header = Some "true" \/ hostname = "fake-host" \/
     endsWith ".internal" hostname = true).
Proof.
  unfold tunnel_get. repeat split.
  - now intros ->.
  - intros Hne Hgate. now rewrite (eqb_empty_false _ Hne), Hgate.
  - intros v. destruct (String.eqb _ ""); [discriminate|].
    destruct (isServiceBindingRequest header hostname) eqn:Hgate; [|discriminate].
    intros _. unfold isServiceBindingRequest in Hgate.
    apply orb_true_iff in Hgate as [Hgate|Hgate]; [|now right; right].
    apply orb_true_iff in Hgate as [Hgate|Hgate].
    + left. destruct header as [h|]; [|discriminate].
      apply String.eqb_eq in Hgate. now subst.
    + right. left. now apply String.eqb_eq.
Qed.

(** X17. What /verify registers, GET /tunnel/{clientId} gives back: after a
    successful /verify carrying a [tunnelUrl], a service-binding request for
    that identity is answered with the record holding that URL. *)
Theorem verify_then_tunnel_get (w : World) (body : VerifyBody) (amb : Ambient)
    (okv : VerifyOk) (c url : string) (header : option string)
    (hostname : string) (later : Z) :
  snd (verify P env w body amb) = Success okv ->
  present (v_clientId body) = Some c ->
  present (v_tunnelUrl body) = Some url ->
  pathname P ("http://internal/get/" +:+ c) = "/get/" +:+ c ->
  isServiceBindingRequest header hostname = true ->
  exists created,
    snd (tunnel_get P (fst (verify P env w body amb)) ("/tunnel/" +:+ c)
           header hostname later) =
      Success
        (JObj [("success", JBool true);
               ("data",
                TunnelStorage.info_json
                  (TunnelStorage.mkTunnelInfo c url (now amb) created))]).
Proof.
  intros Hok Hc Hurl Hpath Hgate.
  destruct (present_Some _ _ Hc) as [_ Hne].
  pose proof (verify_tunnelObject P env w body amb) as Htun.
  rewrite Hok, Hc, Hurl in Htun.
  eexists. unfold tunnel_get.
  replace (substring_from 8 ("/tunnel/" +:+ c)) with c by (now route).
  rewrite (eqb_empty_false _ Hne), Hgate. cbn [negb].
  unfold tunnel_stub_fetch. cbn [fst snd].
  rewrite (tunnel_fetch_get P _ _ c) by assumption. cbn [snd].
  rewrite Htun, lookup_insert_eq. reflexivity.
Qed.

(** X18. GET and OPTIONS requests are safe: whatever the path, the headers
    and the body, the world after the request is the world before it. *)
Theorem safe_methods_change_nothing (w : World) (request : Incoming)
    (amb : Ambient) :
  in_method request = GET \/ in_method request = OPTIONS ->
  fst (Router.fetch P env w request amb) = w.
Proof.
  intros [Hm|Hm]; unfold Router.fetch; rewrite Hm; cbn [Method_eqb andb];
    [|reflexivity].
  rewrite !andb_false_r, !andb_true_r.
  destruct (String.eqb _ "/health"); [reflexivity|].
  destruct (startsWith "/tunnel/" _); [apply tunnel_get_same|].
  destruct (String.eqb _ "/tunnels"); [apply tunnels_same|reflexivity].
Qed.

Lemma tunnel_register_tunnelObject (w : World) (body : RegisterBody) (t : Z) :
  tunnelObject (fst (tunnel_register P w body t)) = tunnelObject w.
Proof.
  unfold tunnel_register.
  destruct (present (r_clientId body)) as [c|]; [|reflexivity].
  destruct (present (r_tunnelUrl body)) as [url|]; [|reflexivity].
  destruct (present (r_token body)) as [tok|]; [|reflexivity].
  unfold tunnel_stub_fetch. cbn [fst snd].
  destruct (tunnel_get_no_token P (tunnelObject w) ("http://internal/get/" +:+ c) tok t)
    as [Hsame Hshape].
  destruct (ok (snd (TunnelStorage.fetch P (tunnelObject w) _ t))) eqn:Hok.
  - rewrite (Hshape eq_refl). cbn [negb fst snd tunnelObject]. exact Hsame.
  - cbn [negb fst snd tunnelObject]. exact Hsame.
Qed.

Lemma challenge_tunnelObject (w : World) (cid : option string) (t : Z)
    (bytes : string) :
  tunnelObject (fst (Worker.challenge P env w cid t bytes)) = tunnelObject w.
Proof.
  unfold Worker.challenge.
  destruct (present cid) as [c|]; [|reflexivity].
  destruct (client_key P env c) as [m|]; [|reflexivity].
  destruct (negb (member_truthy m)); [reflexivity|].
  destruct (generateChallenge P bytes); reflexivity.
Qed.

(** X19. No request to the worker removes a tunnel record: an identity that
    has a record before a request still has one after it, whatever the
    request is. *)
Theorem worker_never_drops_tunnel (w : World) (request : Incoming) (amb : Ambient)
    (key : string) (info : TunnelStorage.TunnelInfo) :
  tunnelObject w !! key = Some info ->
  is_Some (tunnelObject (fst (Router.fetch P env w request amb)) !! key).
Proof.
  intros Hkey.
  assert (Hsame : forall w', tunnelObject w' = tunnelObject w ->
                             is_Some (tunnelObject w' !! key)).
  { intros w' ->. now exists info. }
  unfold Router.fetch.
  destruct (Method_eqb _ OPTIONS); [now apply Hsame|].
  destruct (_ && _); [now apply Hsame|].
  destruct (_ && _).
  { destruct (in_body request) as [b|]; [|now apply Hsame]. cbn [fst].
    apply Hsame, challenge_tunnelObject. }
  destruct (_ && _).
  { destruct (in_body request) as [b|]; [|now apply Hsame]. cbn [fst].
    rewrite verify_tunnelObject.
    destruct (snd (verify _ _ _ _ _)); [now exists info|].
    destruct (present _); [|now exists info].
    destruct (present _); [|now exists info].
    rewrite lookup_insert. case_decide; [eauto|now exists info]. }
  destruct (_ && _).
  { destruct (in_body request) as [b|]; [|now apply Hsame]. cbn [fst].
    apply Hsame, tunnel_register_tunnelObject. }
  destruct (_ && _); [cbn [fst]; rewrite tunnel_get_same; now exists info|].
  destruct (_ && _); [cbn [fst]; rewrite tunnels_same; now exists info|].
  now apply Hsame.
Qed.

End RouterFacts.

(** ** A misconfigured client list *)

Section LockOut.
Import Utils Worker.
Context (P : Platform) (env : Env).

Ltac split_tests :=
  repeat match goal with
  | |- context [match ?x with _ => _ end] =>
      match type of x with
      | sumbool _ _ => fail 1
      | _ => destruct x
      end
  end.




End LockOut.

(** ** auth.ts: the shape of tokens and keys *)

Section AuthShapes.
Context (P : Platform).

Lemma chars_append (s t : string) :
  list_ascii_of_string (s +:+ t) = (list_ascii_of_string s ++ list_ascii_of_string t)%list.
Proof.
  induction s as [|a s IH]; [reflexivity|].
  rewrite append_cons. cbn [list_ascii_of_string]. now rewrite IH.
Qed.

Lemma base64Url_chars (s : string) (a : ascii) :
  In a (list_ascii_of_string (Auth.base64Url s)) ->
  a <> "+"%char /\ a <> "/"%char /\ a <> "="%char.
Proof.
  unfold Auth.base64Url.
  induction s as [|b s IH]; cbn [replace_char remove_chars list_ascii_of_string];
    [intros []|].
  destruct (Ascii.eqb b "+") eqn:Eplus.
  { cbn. intros [<-|Hin]; [repeat split; discriminate|now apply IH]. }
  destruct (Ascii.eqb b "/") eqn:Eslash.
  { cbn. intros [<-|Hin]; [repeat split; discriminate|now apply IH]. }
  destruct (Ascii.eqb "=" b) eqn:Eeq; [exact IH|].
  cbn [list_ascii_of_string]. intros [<-|Hin]; [|now apply IH].
  apply Ascii.eqb_neq in Eplus, Eslash, Eeq. repeat split; congruence.
Qed.

(** X21. The compact token is URL-safe: whatever the identity, the secret
    and the clock, when [generateJWT] returns a token none of its characters
    is [+], [/] or [=]. *)
Theorem generateJWT_url_safe (clientId secretKey : string) (now : Z)
    (token : string) (a : ascii) :
  Auth.generateJWT P clientId secretKey now = Returned token ->
  In a (list_ascii_of_string token) ->
  a <> "+"%char /\ a <> "/"%char /\ a <> "="%char.
Proof.
  unfold Auth.generateJWT, Auth.base64UrlEncode. cbv zeta.
  destruct (btoa P (JSON_stringify P Auth.jwtHeader)) as [h|]; [|discriminate].
  cbn [bind].
  destruct (btoa P (JSON_stringify P (Auth.jwtPayload clientId now))) as [p|];
    [|discriminate].
  cbn [bind].
  destruct (subtle_sign_hmac P _ _) as [sg|]; [|discriminate]. cbn [bind].
  destruct (btoa P sg) as [b64|]; [|discriminate]. cbn [bind].
  intros [= <-].
  rewrite !chars_append, !in_app_iff.
  intros [[H|[H|H]]|[H|H]];
    try (now apply base64Url_chars in H);
    cbn in H; destruct H as [<-|[]]; repeat split; discriminate.
Qed.

Lemma remove_chars_append (f : ascii -> bool) (s t : string) :
  remove_chars f (s +:+ t) = remove_chars f s +:+ remove_chars f t.
Proof.
  induction s as [|a s IH]; [reflexivity|].
  rewrite append_cons. cbn [remove_chars].
  destruct (f a); [exact IH|]. now rewrite append_cons, IH.
Qed.

Lemma append_empty_r (s : string) : s +:+ "" = s.
Proof.
  induction s as [|a s IH]; [reflexivity|]. now rewrite append_cons, IH.
Qed.

Lemma remove_first_header (rest : string) :
  remove_first Auth.pemHeader (Auth.pemHeader +:+ rest) = rest.
Proof.
  unfold Auth.pemHeader. repeat rewrite append_cons. rewrite append_empty.
  destruct rest; reflexivity.
Qed.

Lemma remove_first_footer (body tail : string) :
  (forall a, In a (list_ascii_of_string body) -> a <> "-"%char) ->
  remove_first Auth.pemFooter (body +:+ Auth.pemFooter +:+ tail) = body +:+ tail.
Proof.
  induction body as [|b body IH]; intros Hbody.
  - rewrite !append_empty. unfold Auth.pemFooter.
    repeat rewrite append_cons. rewrite append_empty.
    destruct tail; reflexivity.
  - rewrite append_cons.
    assert (b <> "-"%char) as Hb by (apply Hbody; now left).
    apply Ascii.eqb_neq in Hb. rewrite Ascii.eqb_sym in Hb.
    unfold Auth.pemFooter at 1.
    cbn [remove_first startsWith]. rewrite Hb. cbn [andb].
    rewrite append_cons. f_equal. apply IH.
    intros a Ha. apply Hbody. now right.
Qed.

(** X22. [importPublicKey] reads a PEM block by taking off the BEGIN and END
    lines and all white space: for a body without [-], followed after the END
    line by white space only, it decodes exactly the body with its white
    space removed, and throws exactly when base64 decoding or the key import
    does. *)
Theorem importPublicKey_strips_armor (body tail : string) :
  (forall a, In a (list_ascii_of_string body) -> a <> "-"%char) ->
  remove_chars is_space tail = "" ->
  Auth.importPublicKey P (Auth.pemHeader +:+ body +:+ Auth.pemFooter +:+ tail) =
    bind (atob P (remove_chars is_space body)) (subtle_importKey_spki P).
Proof.
  intros Hbody Htail. unfold Auth.importPublicKey. cbv zeta.
  rewrite remove_first_header, remove_first_footer by assumption.
  now rewrite remove_chars_append, Htail, append_empty_r.
Qed.

End AuthShapes.

(** ** One challenge object, one key *)

Section OwnKey.
Import Utils Worker Router.
Context (P : Platform) (env : Env).

Ltac split_tests :=
  repeat match goal with
  | |- context [match ?x with _ => _ end] =>
      match type of x with
      | sumbool _ _ => fail 1
      | _ => destruct x
      end
  end.

Lemma challenge_fetch_shrinks (st : gmap string ChallengeStorage.Entry)
    (request : Request ChallengeStorage.StoreBody) (k : string)
    (e : ChallengeStorage.Entry) :
  req_method request <> POST ->
  fst (ChallengeStorage.fetch P st request) !! k = Some e -> st !! k = Some e.
Proof.
  intros Hm. unfold ChallengeStorage.fetch.
  destruct (req_method request); try contradiction;
    cbn [Method_eqb]; rewrite ?andb_false_r, ?andb_true_r;
    split_tests; cbn [fst]; auto;
    intros H; apply lookup_delete_Some in H; tauto.
Qed.

Lemma stub_shrinks (w : World) (c name k : string)
    (request : Request ChallengeStorage.StoreBody) (e : ChallengeStorage.Entry) :
  req_method request <> POST ->
  challenge_storage (fst (challenge_stub_fetch P w c request)) name !! k = Some e ->
  challenge_storage w name !! k = Some e.
Proof.
  intros Hm. unfold challenge_stub_fetch. cbn [fst].
  destruct (decide (c = name)) as [->|Hne].
  - rewrite challenge_storage_set_eq. now apply challenge_fetch_shrinks.
  - now rewrite challenge_storage_set_ne.
Qed.

Lemma verify_checks_shrinks (w : World) (body : VerifyBody) (t : Z)
    (name k : string) (e : ChallengeStorage.Entry) :
  challenge_storage (fst (verify_checks P env w body t)) name !! k = Some e ->
  challenge_storage w name !! k = Some e.
Proof.
  unfold verify_checks.
  destruct (present (v_clientId body)) as [c|]; [|auto].
  destruct (present (v_challenge body)) as [ch|]; [|auto].
  destruct (present (v_signature body)) as [sg|]; [|auto].
  split_tests; cbn [fst]; intros H;
    repeat (apply stub_shrinks in H; [|discriminate]); exact H.
Qed.

Lemma verify_shrinks (w : World) (body : VerifyBody) (amb : Ambient)
    (name k : string) (e : ChallengeStorage.Entry) :
  challenge_storage (fst (verify P env w body amb)) name !! k = Some e ->
  challenge_storage w name !! k = Some e.
Proof.
  unfold verify.
  destruct (verify_checks P env w body (now amb)) as [w1 [st err lg|c]] eqn:Hchecks;
    cbn [fst]; intros H.
  - apply (verify_checks_shrinks w body (now amb)). now rewrite Hchecks.
  - apply (verify_checks_shrinks w body (now amb)). rewrite Hchecks. cbn [fst].
    unfold verify_issue in H.
    destruct (Auth.generateJWT P c (jwtSecret env) (now amb));
      [|now apply stub_shrinks in H].
    destruct (generateToken P (random amb));
      [|now apply stub_shrinks in H].
    cbn [fst] in H.
    destruct (present (v_tunnelUrl body));
      rewrite ?challenge_storage_tunnel in H;
      now apply stub_shrinks in H.
Qed.

Lemma tunnel_register_challenges (w : World) (body : RegisterBody) (t : Z)
    (name : string) :
  challenge_storage (fst (tunnel_register P w body t)) name = challenge_storage w name.
Proof. unfold tunnel_register. split_tests; reflexivity. Qed.

(** X23. Each challenge object holds its own identity's key and no other:
    if that is so before a request to the worker, whatever the request, it
    is so after it. It holds of the empty world, hence of every world the
    worker reaches. *)
Theorem challenge_objects_hold_own_key (w : World) (request : Incoming)
    (amb : Ambient) :
  (forall name k e, challenge_storage w name !! k = Some e -> k = name) ->
  forall name k e,
    challenge_storage (fst (Router.fetch P env w request amb)) name !! k = Some e ->
    k = name.
Proof.
  intros Hinv name k e. unfold Router.fetch.
  destruct (Method_eqb _ OPTIONS); [apply Hinv|].
  destruct (_ && _); [apply Hinv|].
  destruct (_ && _).
  { destruct (in_body request) as [b|]; [|apply Hinv]. cbn [fst].
    unfold Worker.challenge.
    destruct (present (clientId b)) as [c|]; [|apply Hinv].
    destruct (client_key P env c) as [m|]; [|apply Hinv].
    destruct (negb (member_truthy m)); [apply Hinv|].
    destruct (generateChallenge P (random amb)) as [ch|]; [|apply Hinv].
    unfold challenge_stub_fetch. rewrite challenge_fetch_store. cbn [fst].
    cbn [ChallengeStorage.b_clientId].
    destruct (decide (c = name)) as [->|Hne].
    - rewrite challenge_storage_set_eq.
      destruct (decide (name = k)) as [->|Hk]; [reflexivity|].
      rewrite lookup_insert_ne by assumption. apply Hinv.
    - rewrite challenge_storage_set_ne by assumption. apply Hinv. }
  destruct (_ && _).
  { destruct (in_body request) as [b|]; [|apply Hinv]. cbn [fst].
    intros H. apply verify_shrinks in H. eapply Hinv, H. }
  destruct (_ && _).
  { destruct (in_body request) as [b|]; [|apply Hinv]. cbn [fst].
    rewrite tunnel_register_challenges. apply Hinv. }
  destruct (_ && _);
    [cbn [fst]; rewrite (tunnel_get_same P); apply Hinv|].
  destruct (_ && _);
    [cbn [fst]; rewrite (tunnels_same P); apply Hinv|].
  apply Hinv.
Qed.

End OwnKey.

(** ** Further runs on the concrete platform *)

Section MoreRuns.
Import Utils Worker Concurrent Demo.

Lemma challenge_store_then_get_witness :
  snd (ChallengeStorage.fetch platform
         (fst (ChallengeStorage.fetch platform ∅
                 (mkRequest POST "http://internal/store"
                    (Some (ChallengeStorage.mkStoreBody "c1" "nonce" 301000)))))
         (mkRequest GET "http://internal/get/c1" None)) =
    mkResponse 200 (Json (ChallengeStorage.entry_json entry1)).
Proof.
  apply (challenge_store_then_get platform ∅
           (ChallengeStorage.mkStoreBody "c1" "nonce" 301000)
           "http://internal/get/c1").
  reflexivity.
Defined.

Lemma challenge_delete_then_get_witness :
  snd (ChallengeStorage.fetch platform
         (fst (ChallengeStorage.fetch platform (challenge_storage issued "c1")
                 (mkRequest DELETE "http://internal/delete/c1" None)))
         (mkRequest GET "http://internal/get/c1" None)) =
    mkResponse 404 (Json (JObj [("error", JStr "Challenge not found")])).
Proof.
  apply (challenge_delete_then_get platform (challenge_storage issued "c1") "c1"
           "http://internal/delete/c1" "http://internal/get/c1");
    reflexivity.
Defined.

Lemma tunnel_store_rejects_missing_witness :
  snd (TunnelStorage.fetch platform stored_once
         (TunnelStorage.store_request "c1" "" "tok") 2000) =
    TunnelStorage.failure 400 "Missing clientId or tunnelUrl".
Proof.
  apply (tunnel_store_rejects_missing platform stored_once "c1" "" "tok" 2000).
  right. reflexivity.
Defined.

Lemma tunnel_first_store_witness :
  TunnelStorage.fetch platform ∅
    (TunnelStorage.store_request "c1" "https://t1.example" "tok") 1000 =
    (<["tunnel:" +:+ "c1" := record1]> ∅,
     TunnelStorage.success_data (TunnelStorage.info_json record1)).
Proof.
  apply (tunnel_first_store platform ∅ "c1" "https://t1.example" "tok" 1000).
  - discriminate.
  - discriminate.
  - reflexivity.
Defined.

Lemma tunnel_delete_then_get_witness :
  snd (TunnelStorage.fetch platform
         (fst (TunnelStorage.fetch platform stored_once
                 (mkRequest DELETE "http://internal/delete/c1" None) 2000))
         (mkRequest GET "http://internal/get/c1" None) 3000) =
    TunnelStorage.failure 404 "Tunnel not found".
Proof.
  apply (tunnel_delete_then_get platform stored_once "c1"
           "http://internal/delete/c1" "http://internal/get/c1" 2000 3000).
  - discriminate.
  - reflexivity.
  - reflexivity.
Defined.

Lemma reachable_records_wellformed_witness :
  "tunnel:c1" = "tunnel:" +:+ TunnelStorage.clientId record1 /\
  TunnelStorage.clientId record1 <> "" /\ TunnelStorage.tunnelUrl record1 <> "".
Proof.
  apply (reachable_records_wellformed platform stored_once "tunnel:c1" record1).
  - apply TunnelStorage.reachable_fetch; [apply TunnelStorage.reachable_empty|lia].
  - vm_compute; reflexivity.
Defined.

Lemma tunnel_list_complete_witness :
  exists items,
    TunnelStorage.fetch platform stored_once
      (mkRequest GET "http://internal/list" None) 2000 =
      (stored_once,
       mkResponse 200
         (Json (JObj [("success", JBool true); ("data", JArr items);
                      ("count", JNum (Z.of_nat (size stored_once)))]))) /\
    List.length items = size stored_once /\
    forall v,
      In v items <->
      exists k info, stored_once !! k = Some info /\ v = TunnelStorage.info_json info.
Proof.
  apply (tunnel_list_complete platform stored_once "http://internal/list" None 2000).
  - apply TunnelStorage.reachable_fetch; [apply TunnelStorage.reachable_empty|lia].
  - reflexivity.
Defined.

Lemma tunnel_store_frame_witness :
  fst (TunnelStorage.fetch platform stored_once
         (TunnelStorage.store_request "c2" "https://t9.example" "tok") 2000)
    !! ("tunnel:" +:+ "c1")
  = stored_once !! ("tunnel:" +:+ "c1").
Proof.
  apply (tunnel_store_frame platform stored_once "c2" "c1" "https://t9.example"
           "tok" 2000).
  discriminate.
Defined.

Lemma challenge_then_verify_witness :
  is_success
    (snd (verify platform env
            (fst (challenge platform env empty_world (Some "c1") 1000 "nonce"))
            (mkVerifyBody (Some "c1") (Some "nonce")
               (Some (sign "KEY1" "nonce")) None None false None)
            amb1))
  = true.
Proof.
  rewrite (challenge_then_verify platform env empty_world "c1" "nonce" "KEY1"
             (sign "KEY1" "nonce") "KEY1" 1000 "nonce" None None None false amb1).
  - reflexivity.
  - split; reflexivity.
  - discriminate.
  - discriminate.
  - discriminate.
  - discriminate.
  - reflexivity.
  - reflexivity.
  - reflexivity.
  - reflexivity.
Defined.

Lemma challenge_replaces_previous_witness :
  snd (verify platform env
         (fst (challenge platform env
                 (fst (challenge platform env empty_world (Some "c1") 1000 "nonce"))
                 (Some "c1") 1500 "second"))
         (mkVerifyBody (Some "c1") (Some "nonce")
            (Some (sign "KEY1" "nonce")) None None false None)
         amb1)
  = Failure 401 "Authentication failed" ("Challenge mismatch for client: " +:+ "c1").
Proof.
  apply (challenge_replaces_previous platform env empty_world "c1" "nonce" "second"
           (sign "KEY1" "nonce") (StringMember "KEY1") 1000 1500 "nonce" "second"
           None None None false amb1).
  - split; reflexivity.
  - discriminate.
  - discriminate.
  - discriminate.
  - reflexivity.
  - reflexivity.
  - reflexivity.
  - reflexivity.
  - discriminate.
  - vm_compute; discriminate.
Defined.

Lemma verify_touches_own_object_only_witness :
  challenge_storage (fst (verify platform env issued good_body amb1)) "c2"
  = challenge_storage issued "c2".
Proof.
  apply (verify_touches_own_object_only platform env issued good_body amb1 "c2").
  discriminate.
Defined.

Lemma verify_then_tunnel_get_witness :
  exists created,
    snd (Router.tunnel_get platform (fst (verify platform env issued good_body amb1))
           ("/tunnel/" +:+ "c1") (Some "true") "auth.example" 3000) =
      Success
        (JObj [("success", JBool true);
               ("data",
                TunnelStorage.info_json
                  (TunnelStorage.mkTunnelInfo "c1" "https://t1.example"
                     (now amb1) created))]).
Proof.
  apply (verify_then_tunnel_get platform env issued good_body amb1 good_reply
           "c1" "https://t1.example" (Some "true") "auth.example" 3000).
  - vm_compute; reflexivity.
  - reflexivity.
  - reflexivity.
  - reflexivity.
  - reflexivity.
Defined.

Lemma safe_methods_change_nothing_witness :
  fst (Router.fetch platform env issued
         (Router.mkIncoming GET "http://internal/tunnel/c1" "fake-host" None None)
         amb1) = issued.
Proof.
  apply (safe_methods_change_nothing platform env issued
           (Router.mkIncoming GET "http://internal/tunnel/c1" "fake-host" None None)
           amb1).
  left. reflexivity.
Defined.

Lemma worker_never_drops_tunnel_witness :
  is_Some
    (tunnelObject
       (fst (Router.fetch platform env (mkWorld ∅ stored_once)
               (Router.mkIncoming POST "http://internal/tunnel/register" "auth.example"
                  None
                  (Some (Router.mkBody (Some "c1") None None None None false
                           (Some "https://t2.example") (Some "tok"))))
               amb1))
       !! "tunnel:c1").
Proof.
  apply (worker_never_drops_tunnel platform env (mkWorld ∅ stored_once)
           (Router.mkIncoming POST "http://internal/tunnel/register" "auth.example"
              None
              (Some (Router.mkBody (Some "c1") None None None None false
                       (Some "https://t2.example") (Some "tok"))))
           amb1 "tunnel:c1" record1).
  vm_compute; reflexivity.
Defined.


Lemma verify_failure_generic_witness :
  snd (verify platform env issued (verify_body "nonce" "forged" None) amb1) =
    Failure 401 "Authentication failed" ("Invalid signature for client: " +:+ "c1").
Proof.
  destruct (verify_failure_generic platform env issued
              (verify_body "nonce" "forged" None) amb1) as [_ H].
  destruct (H "c1" "nonce" "forged" eq_refl eq_refl eq_refl) as (_ & _ & Hfound).
  destruct (Hfound entry1) as (_ & _ & Hmatch); [vm_compute; reflexivity|].
  destruct Hmatch as [_ Hinvalid].
  - vm_compute; discriminate.
  - reflexivity.
  - apply (Hinvalid "KEY1" "KEY1").
    + reflexivity.
    + discriminate.
    + reflexivity.
    + reflexivity.
Defined.

Lemma generateJWT_url_safe_witness :
  Auth.generateJWT platform "c1" "s3cret" 2000 = Returned "{}.{}.s3cret:{}.{}" /\
  "."%char <> "+"%char /\ "."%char <> "/"%char /\ "."%char <> "="%char.
Proof.
  split; [reflexivity|].
  apply (generateJWT_url_safe platform "c1" "s3cret" 2000 "{}.{}.s3cret:{}.{}"
           "."%char).
  - reflexivity.
  - vm_compute. right. right. left. reflexivity.
Defined.

Lemma importPublicKey_strips_armor_witness :
  Auth.importPublicKey platform
    (Auth.pemHeader +:+ String "010" ("QUJD" +:+ String "010" "")
       +:+ Auth.pemFooter +:+ String "010" "")
  = bind (atob platform "QUJD") (subtle_importKey_spki platform).
Proof.
  apply (importPublicKey_strips_armor platform
           (String "010" ("QUJD" +:+ String "010" "")) (String "010" "")).
  - intros a H. vm_compute in H.
    repeat (destruct H as [<-|H]; [discriminate|]). destruct H.
  - reflexivity.
Defined.

Lemma challenge_objects_hold_own_key_witness :
  challenge_storage
    (fst (Router.fetch platform env empty_world
            (Router.mkIncoming POST "http://internal/challenge" "auth.example" None
               (Some (Router.mkBody (Some "c1") None None None None false None None)))
            amb1))
    "c1" !! "c2" = None.
Proof.
  destruct (challenge_storage _ "c1" !! "c2") as [e|] eqn:E; [|reflexivity].
  apply (challenge_objects_hold_own_key platform env empty_world) in E.
  - discriminate E.
  - intros name k e' H. unfold challenge_storage, empty_world in H.
    cbn [challengeObjects] in H. rewrite lookup_empty in H.
    cbn [default] in H. rewrite lookup_empty in H. discriminate H.
Defined.

End MoreRuns.
